(** * A-CEEI with (contested) EF-TB: a shallow embedding of
      [fairpyx/algorithms/ACEEI.py]

    The Python functions are embedded as Rocq functions over an explicit
    model of the Python values they touch:

    - numbers are exact rationals [Qc] in the embedding of the whole file:
      this is the arithmetic of Python's [int] and [fractions.Fraction], and
      of a run on [float]s as long as no operation rounds;
    - [find_different_budgets], whose result depends on the rounding, is
      embedded a second time over the interface [Number] of the operations
      it applies to numbers ([Numeric]), with the exact rationals and the
      binary64 [float]s as instances;
    - a run-time exception is a value of [exn], carried by the error monad
      [result]; the three orchestrating functions additionally log which
      stage of the algorithm they enter ([traced]);
    - a [dict] that the code iterates over is an association list in
      insertion order, a [dict] that is only indexed is a [gmap], a [set]
      of numbers is a [gset], or a duplicate-free list under [==];
    - the [while] loop of [find_ACEEI_with_EFTB] is bounded by fuel; running
      out of fuel is [None], which is neither a return nor an exception.

    [linear_program.optimize_model] is not part of the file: every definition
    and theorem that depends on it takes it as a parameter. *)

From Stdlib Require Import QArith Qcanon SpecFloat.
From stdpp Require Import base decidable option numbers list sorting strings
  countable gmap.

Local Open Scope Qc_scope.

(** ** Python values *)

(** Keys of dictionaries: agent and item names are strings in the doctests,
    while [student_budget_per_bundle] indexes with integers. *)
Inductive key :=
  | KStr (s : string)
  | KInt (n : Z).

Global Instance key_eq_dec : EqDecision key.
Proof. solve_decision. Defined.

Global Instance key_countable : Countable key.
Proof.
  refine (inj_countable'
    (λ k, match k with KStr s => inl s | KInt n => inr n end)
    (λ x, match x with inl s => KStr s | inr n => KInt n end) _).
  by intros [].
Defined.

(** The exceptions the embedded code can raise.  [SolverError] stands for
    whatever the external optimizer raises on its own. *)
Inductive exn :=
  | AttributeError
  | IndexError
  | KeyError
  | TypeError
  | ValueError
  | ZeroDivisionError
  | UnboundLocalError
  | SolverError.

Global Instance exn_eq_dec : EqDecision exn.
Proof. solve_decision. Defined.

Inductive result (A : Type) :=
  | Ok (a : A)
  | Raise (e : exn).
Arguments Ok {A} a.
Arguments Raise {A} e.

Global Instance result_eq_dec `{EqDecision A} : EqDecision (result A).
Proof. solve_decision. Defined.

Global Instance result_ret : MRet result := @Ok.
Global Instance result_bind : MBind result := λ A B f m,
  match m with
  | Ok a => f a
  | Raise e => Raise e
  end.

(** Values that cross the boundary with the optimizer, and the values of
    the local variables of [find_ACEEI_with_EFTB] after the unpacking. *)
#[warnings="-register-all"]
Inductive pyval :=
  | PNone
  | PNum (x : Qc)
  | PVec (xs : list Qc)
  | PMat (rows : list (list Z))
  | PTuple (vs : list pyval).

Inductive EFTBStatus :=
  | NO_EF_TB
  | EF_TB
  | CONTESTED_EF_TB.

(** An ordered [dict]: [keys()] and [values()] follow insertion order. *)
Definition dict (V : Type) := list (key * V).

Definition dict_keys {V} (d : dict V) : list key := d.*1.
Definition dict_values {V} (d : dict V) : list V := d.*2.

Fixpoint dict_get {V} (d : dict V) (k : key) : option V :=
  match d with
  | [] => None
  | (k', v) :: d' => if decide (k' = k) then Some v else dict_get d' k
  end.

(** [d[k]] on an ordered dict, on a list and on an index-only dict. *)
Definition dict_getitem {V} (d : dict V) (k : key) : result V :=
  match dict_get d k with
  | Some v => Ok v
  | None => Raise KeyError
  end.

Definition list_getitem {A} (l : list A) (i : nat) : result A :=
  match l !! i with
  | Some x => Ok x
  | None => Raise IndexError
  end.

Definition gmap_getitem {V} (d : gmap key V) (k : key) : result V :=
  match d !! k with
  | Some v => Ok v
  | None => Raise KeyError
  end.

(** [prices] is a list where [find_ACEEI_with_EFTB] builds it and where
    [student_budget_per_bundle] and [clipped_excess_demand] index it by
    position, and a dict where [find_different_budgets] calls [.values()]. *)
Inductive price_table :=
  | PriceList (l : list Qc)
  | PriceDict (d : dict Qc).

Definition price_getitem (prices : price_table) (i : nat) : result Qc :=
  match prices with
  | PriceList l => list_getitem l i
  | PriceDict d => dict_getitem d (KInt (Z.of_nat i))
  end.

Definition price_values (prices : price_table) : result (list Qc) :=
  match prices with
  | PriceList _ => Raise AttributeError
  | PriceDict d => Ok (dict_values d)
  end.

Definition price_len (prices : price_table) : nat :=
  match prices with
  | PriceList l => length l
  | PriceDict d => length d
  end.

(** [different_budgets] is the dict returned by [find_different_budgets];
    [student_budget_per_bundle] indexes it with the position of the
    student, which also works on a list of rows. *)
Inductive budget_table :=
  | BudgetList (l : list (list Qc))
  | BudgetDict (d : gmap key (list Qc)).

Definition budget_getitem (t : budget_table) (i : nat) : result (list Qc) :=
  match t with
  | BudgetList l => list_getitem l i
  | BudgetDict d => gmap_getitem d (KInt (Z.of_nat i))
  end.

(** Modelled from the spec: the class [fairpyx.Instance], which line 9
    imports and which is not among the sources.  The record holds what the
    file reads of an instance.  The accessor contract of the spec gives
    [agent_capacity(agent)] and [item_capacity(item)] as functions of an
    identifier, beside [num_of_agents] and [num_of_items]; [agents] is the
    sequence of the identifiers, as line 73 iterates over it; the
    underscored attributes are the dicts that
    [student_budget_per_bundle] reads. *)
Record Instance := {
  num_of_agents : nat;
  num_of_items : nat;
  agents : list key;
  agent_capacity : key → Z;
  item_capacity : key → Z;
  _agent_capacities : dict Z;
  _item_capacities : dict Z;
  _valuations : dict (dict Qc)
}.

(** [f[i]] on a function or a bound method [f]: the object has no
    [__getitem__], so the subscript raises [TypeError] whatever [i] is. *)
Definition function_getitem {A B} (f : A → B) (i : nat) : result B :=
  Raise TypeError.

(** Left-to-right monadic loop over a list: the [for] statement. *)
Fixpoint foldM {M : Type → Type} `{!MBind M, !MRet M} {A B}
    (f : B → A → M B) (b : B) (l : list A) : M B :=
  match l with
  | [] => mret b
  | a :: l' => b' ← f b a; foldM f b' l'
  end.

(** [range(n)] and [range(1, n + 1)]. *)
Definition range (n : nat) : list nat := seq 0 n.
Definition range1 (n : Z) : list nat := seq 1 (Z.to_nat n).

(** ** [excess_demand] and [clipped_excess_demand] *)

(** Lines 26-28: the sum of the column of a course over the rows of the
    agents. *)
Definition column_sum (instance : Instance) (allocation : list (list Z))
    (course : nat) : result Z :=
  foldM (λ sum student,
           row ← list_getitem allocation student;
           a ← list_getitem row course;
           mret (sum + a)%Z)
        0%Z (range (num_of_agents instance)).

(** [z[course] = ...] is the list update [<[course := ...]>]; the index
    comes from [range(len(z))], so it is never out of range.  Line 29
    subscripts the accessor [instance.item_capacity], where line 76 calls
    [instance.agent_capacity]. *)
Definition excess_demand (instance : Instance) (initial_budgets : gmap key Qc)
    (prices : price_table) (allocation : list (list Z)) : result (list Z) :=
  let z := replicate (num_of_items instance) 0%Z in
  foldM (λ z course,
           sum ← column_sum instance allocation course;
           cap ← function_getitem (item_capacity instance) course;
           mret (<[course := (sum - cap)%Z]> z))
        z (range (num_of_items instance)).

(** Line 35 indexes [prices] by position and clips where the price is 0. *)
Definition clipped_excess_demand (instance : Instance)
    (initial_budgets : gmap key Qc) (prices : price_table)
    (allocation : list (list Z)) : result (list Z) :=
  z ← excess_demand instance initial_budgets prices allocation;
  mapM (λ i,
          p ← price_getitem prices i;
          zi ← list_getitem z i;
          mret (if decide (p = 0) then Z.max 0 zi else zi))
       (range (length z)).

(** ** Stages and the traced error monad *)

(** The orchestrating functions log the stage they enter, so that a run
    tells how far it got before it returned or raised. *)
Inductive stage :=
  | PriceIteration
  | BudgetEnumeration (student : key)
  | BundleMaximization (student : key)
  | Optimization.

Global Instance stage_eq_dec : EqDecision stage.
Proof. solve_decision. Defined.

Record traced (A : Type) := Traced {
  trace : list stage;
  outcome : result A
}.
Arguments Traced {A} trace outcome.
Arguments trace {A} t.
Arguments outcome {A} t.

Global Instance traced_ret : MRet traced := λ A a, Traced [] (Ok a).
Global Instance traced_bind : MBind traced := λ A B f m,
  match outcome m with
  | Ok a => Traced (trace m ++ trace (f a)) (outcome (f a))
  | Raise e => Traced (trace m) (Raise e)
  end.

Definition tell (s : stage) : traced unit := Traced [s] (Ok ()).
Definition lift {A} (r : result A) : traced A := Traced [] r.

(** ** [find_different_budgets] on exact rationals *)

(** [itertools.combinations(l, r)]: the sub-sequences of length [r], in
    the order of the positions. *)
Fixpoint combinations {A} (l : list A) (r : nat) : list (list A) :=
  match r with
  | O => [[]]
  | S r' =>
      match l with
      | [] => []
      | x :: l' => (cons x <$> combinations l' r') ++ combinations l' r
      end
  end.

(** The built-in [sum] on exact rationals. *)
Definition sum_list (l : list Qc) : Qc := foldr Qcplus 0 l.

(** True division of exact rationals, as [Fraction.__truediv__]; on
    [float]s the quotient is rounded ([float_truediv]). *)
Definition py_div (x y : Qc) : result Qc :=
  if decide (y = 0) then Raise ZeroDivisionError else Ok (x / y).

(** Lines 77-79: the sums of the combinations of [r] prices, for [r] from 1
    to [capacity], are added to the set. *)
Definition add_combination_sums (prices : price_table) (capacity : Z)
    (combinations_sum_set : gset Qc) : result (gset Qc) :=
  foldM (λ sums r,
           values ← price_values prices;
           mret (foldl (λ s combo, {[ sum_list combo ]} ∪ s) sums
                       (combinations values r)))
        combinations_sum_set (range1 capacity).

(** [sorted(combinations_sum_set)] *)
Definition sorted (s : gset Qc) : list Qc := merge_sort Qcle (elements s).

(** Lines 86-92: the walk over the sorted sums, with its [break]. *)
Fixpoint budget_row (max_k max_budget : Qc) (sums : list Qc)
    (row_student : list Qc) (min_budget : Qc) : list Qc :=
  match sums with
  | [] => row_student
  | combination_sum :: sums' =>
      if decide (max_k < Qc_of_Z (Z.of_nat (length row_student + 1)))
      then row_student
      else if decide (min_budget < combination_sum ≤ max_budget)
      then budget_row max_k max_budget sums'
                      (row_student ++ [combination_sum]) combination_sum
      else budget_row max_k max_budget sums' row_student min_budget
  end.

(** Lines 74-94: the body of the loop over the students.  The set of sums
    and the dict of rows are the two variables that live across passes. *)
Definition student_pass (instance : Instance) (initial_budgets : gmap key Qc)
    (epsilon max_k : Qc) (prices : price_table)
    (st : gset Qc * gmap key (list Qc)) (student : key)
    : traced (gset Qc * gmap key (list Qc)) :=
  let '(combinations_sum_set, different_budgets) := st in
  _ ← tell (BudgetEnumeration student);
  let capacity := agent_capacity instance student in
  combinations_sum_set ←
    lift (add_combination_sums prices capacity combinations_sum_set);
  budget ← lift (gmap_getitem initial_budgets student);
  let min_budget := budget - epsilon in
  let max_budget := budget + epsilon in
  let row_student :=
    budget_row max_k max_budget (sorted combinations_sum_set)
               [min_budget] min_budget in
  mret (combinations_sum_set, <[student := row_student]> different_budgets).

Definition find_different_budgets (instance : Instance)
    (initial_budgets : gmap key Qc) (epsilon delta : Qc)
    (prices : price_table) : traced (gmap key (list Qc)) :=
  max_k ← lift (q ← py_div (2 * epsilon) delta; mret (q + 1));
  st ← foldM (student_pass instance initial_budgets epsilon max_k prices)
             (∅, ∅) (agents instance);
  mret st.2.

(** ** [student_budget_per_bundle] *)

(** The local variables of one student's search.  [utility_combination] is
    [None] while the name is unbound; [utility_max_combination] is [None]
    for [float('-inf')]. *)
Record locals := Locals {
  combination_list : list (list nat);
  max_combination : option (list nat);
  utility_max_combination : option Qc;
  utility_combination : option Qc
}.

(** Reading a local variable that was never assigned. *)
Definition read_local {A} (x : option A) : result A :=
  match x with
  | Some a => Ok a
  | None => Raise UnboundLocalError
  end.

(** [u > utility_max_combination] *)
Definition exceeds (u : Qc) (best : option Qc) : bool :=
  match best with
  | None => true
  | Some b => bool_decide (b < u)
  end.

(** Lines 123-138: the body of the loop over [combination_list]. *)
Definition consider (instance : Instance) (prices : price_table)
    (student_name : key) (large_num budget : Qc) (st : locals)
    (combination : list nat) : result locals :=
  chosen ← mapM (price_getitem prices) combination;
  let sum_of_prices := sum_list chosen in
  if decide (sum_of_prices ≤ budget) then
    bonus ←
      (if decide (Z.of_nat (length combination)
                  = agent_capacity instance student_name)
       then u ← read_local (utility_combination st);
            mret (Some (u + large_num))
       else mret (utility_combination st));
    u ← read_local bonus;
    if exceeds u (utility_max_combination st)
    then mret (Locals (combination_list st) (Some combination) (Some u) bonus)
    else mret (Locals (combination_list st) (max_combination st)
                      (utility_max_combination st) bonus)
  else mret st.

(** Lines 142-143 *)
Definition binary_vector (max_combination : option (list nat))
    (prices : price_table) : list Z :=
  (λ i, match max_combination with
        | Some c => if decide (i ∈ c) then 1%Z else 0%Z
        | None => 0%Z
        end) <$> range (price_len prices).

(** Lines 117-145: the body of the loop over the budgets of one student. *)
Definition per_budget (instance : Instance) (prices : price_table)
    (student_idx : nat) (student_name : key) (large_num : Qc)
    (st : locals * list (list (list Z))) (budget : Qc)
    : result (locals * list (list (list Z))) :=
  let '(s, matrix_a) := st in
  capacity ← dict_getitem (_agent_capacities instance) student_name;
  let number_course := range (length (dict_keys (_item_capacities instance))) in
  let s := Locals (combination_list s
                   ++ mjoin (combinations number_course <$> range1 capacity))
                  (max_combination s) (utility_max_combination s)
                  (utility_combination s) in
  s ← foldM (consider instance prices student_name large_num budget)
            s (combination_list s);
  row ← list_getitem matrix_a student_idx;
  mret (s, <[student_idx := row ++ [binary_vector (max_combination s) prices]]>
              matrix_a).

(** The name [utility_combination] belongs to the whole function: its
    binding is handed from one student to the next, beside [matrix_a]. *)
Definition student_budget_per_bundle (different_budgets : budget_table)
    (prices : price_table) (instance : Instance)
    : traced (list (list (list Z))) :=
  let matrix_a := replicate (num_of_agents instance) [] in
  let students_names := dict_keys (_agent_capacities instance) in
  st ← foldM (λ (st : option Qc * list (list (list Z))) (student : nat * key),
      let '(binding, matrix_a) := st in
      let '(student_idx, student_name) := student in
      _ ← tell (BundleMaximization student_name);
      valuations ← lift (dict_getitem (_valuations instance) student_name);
      let large_num := sum_list (dict_values valuations) in
      budgets ← lift (budget_getitem different_budgets student_idx);
      st ← lift (foldM (per_budget instance prices student_idx student_name
                                   large_num)
                       (Locals [] None None binding, matrix_a)
                       budgets);
      mret (utility_combination st.1, st.2))
    (None, matrix_a) (imap pair students_names);
  mret st.2.

(** ** [find_budget_perturbation] and [find_ACEEI_with_EFTB] *)

(** [linear_program.optimize_model(a, instance, prices, t, initial_budgets)] *)
Definition optimizer : Type :=
  list (list (list Z)) → Instance → price_table → EFTBStatus → gmap key Qc
  → result pyval.

(** The function ends after the call of the optimizer: it returns [None]. *)
Definition find_budget_perturbation (optimize_model : optimizer)
    (initial_budgets : gmap key Qc) (epsilon delta : Qc)
    (prices : price_table) (instance : Instance) (t : EFTBStatus)
    : traced pyval :=
  different_budgets ←
    find_different_budgets instance initial_budgets epsilon delta prices;
  a ← student_budget_per_bundle (BudgetDict different_budgets) prices instance;
  _ ← tell Optimization;
  _ ← lift (optimize_model a instance prices t initial_budgets);
  mret PNone.

(** [w, x, y, z = v] *)
Definition unpack4 (v : pyval) : result (pyval * pyval * pyval * pyval) :=
  match v with
  | PNone | PNum _ => Raise TypeError
  | PTuple [a; b; c; d] => Ok (a, b, c, d)
  | PVec [a; b; c; d] => Ok (PNum a, PNum b, PNum c, PNum d)
  | PMat [a; b; c; d] =>
      Ok (PVec (Qc_of_Z <$> a), PVec (Qc_of_Z <$> b),
          PVec (Qc_of_Z <$> c), PVec (Qc_of_Z <$> d))
  | PTuple _ | PVec _ | PMat _ => Raise ValueError
  end.

(** Truth value of an object, for [while norma]. *)
Definition truthy (v : pyval) : bool :=
  match v with
  | PNone => false
  | PNum x => bool_decide (x ≠ 0)
  | PVec xs => bool_decide (xs ≠ [])
  | PMat rows => bool_decide (rows ≠ [])
  | PTuple vs => match vs with [] => false | _ => true end
  end.

(** [norma == 0] *)
Definition equals_zero (v : pyval) : bool :=
  match v with
  | PNum x => bool_decide (x = 0)
  | _ => false
  end.

(** [delta * excess_demand] with [delta] a [float]: a product of numbers,
    and a [TypeError] on a sequence or on [None]. *)
Definition float_mul (delta : Qc) (v : pyval) : result Qc :=
  match v with
  | PNum x => Ok (delta * x)
  | _ => Raise TypeError
  end.

(** [prices + w] with [w] a number: neither a list nor a dict can be added
    to a number. *)
Definition price_add (prices : price_table) (w : Qc) : result price_table :=
  Raise TypeError.

Definition prepend {A} (tr : list stage) (m : option (traced A))
    : option (traced A) :=
  (λ r, Traced (tr ++ trace r) (outcome r)) <$> m.

(** Lines 255-256: the call and the unpacking of its result. *)
Definition perturbation_step (optimize_model : optimizer)
    (initial_budgets : gmap key Qc) (epsilon delta : Qc)
    (prices : price_table) (instance : Instance) (t : EFTBStatus)
    : traced (pyval * pyval * pyval * pyval) :=
  _ ← tell PriceIteration;
  r ← find_budget_perturbation optimize_model initial_budgets epsilon delta
                               prices instance t;
  lift (unpack4 r).

(** Lines 253-261.  [None] means that the fuel ran out. *)
Fixpoint equilibrium_loop (optimize_model : optimizer) (fuel : nat)
    (instance : Instance) (initial_budgets : gmap key Qc) (delta epsilon : Qc)
    (t : EFTBStatus) (prices : price_table) (norma : pyval)
    : option (traced pyval) :=
  match fuel with
  | O => None
  | S fuel' =>
      if truthy norma then
        let step := perturbation_step optimize_model initial_budgets epsilon
                                      delta prices instance t in
        match outcome step with
        | Raise e => Some (Traced (trace step) (Raise e))
        | Ok (new_budgets, norma, allocation, excess_demand) =>
            if equals_zero norma then Some (Traced (trace step) (Ok allocation))
            else
              match w ← float_mul delta excess_demand; price_add prices w with
              | Raise e => Some (Traced (trace step) (Raise e))
              | Ok prices =>
                  prepend (trace step)
                    (equilibrium_loop optimize_model fuel' instance
                       initial_budgets delta epsilon t prices norma)
              end
        end
      else Some (mret PNone)
  end.

Definition find_ACEEI_with_EFTB (optimize_model : optimizer) (fuel : nat)
    (instance : Instance) (initial_budgets : gmap key Qc) (delta epsilon : Qc)
    (t : EFTBStatus) : option (traced pyval) :=
  let allocation :=
    replicate (num_of_items instance) (replicate (num_of_agents instance) 0%Z) in
  let prices := PriceList (replicate (num_of_items instance) 0) in
  let norma := PNum 1 in
  equilibrium_loop optimize_model fuel instance initial_budgets delta epsilon t
                   prices norma.

(** ** [find_different_budgets] on any numbers *)

(** The operations that lines 66-92 apply to their numbers, as the methods
    that Python dispatches to: [py_int] takes an [int] literal or a length
    to the type of the other operand, [py_truediv] raises
    [ZeroDivisionError], the comparisons answer with a [bool].  [py_sum] is
    the built-in [sum] of a tuple and [py_sorted] is [sorted] of a set whose
    elements are handed over as a list. *)
Class Number (N : Type) := {
  py_int : Z → N;
  py_add : N → N → N;
  py_sub : N → N → N;
  py_mul : N → N → N;
  py_truediv : N → N → result N;
  py_lt : N → N → bool;
  py_le : N → N → bool;
  py_eq : N → N → bool;
  py_sum : list N → N;
  py_sorted : list N → list N
}.

(** [fractions.Fraction], and [int] where no division occurs: the
    arithmetic of the embedding above. *)
Global Instance Fraction : Number Qc := {|
  py_int := Qc_of_Z;
  py_add := Qcplus;
  py_sub := Qcminus;
  py_mul := Qcmult;
  py_truediv := py_div;
  py_lt := λ x y, bool_decide (x < y);
  py_le := λ x y, bool_decide (x ≤ y);
  py_eq := λ x y, bool_decide (x = y);
  py_sum := sum_list;
  py_sorted := merge_sort Qcle
|}.

(** [float]: IEEE 754 binary64 with rounding to nearest, ties to even, as
    [SpecFloat] specifies it for a precision of 53 bits. *)
Definition float : Type := spec_float.
Global Typeclasses Transparent float.

Global Instance float_eq_dec : EqDecision float.
Proof. solve_decision. Defined.

(** [float(n)] for an [int]; exact up to [2^53]. *)
Definition float_of_int (n : Z) : float := binary_normalize 53 1024 n 0 false.

(** [x / y] raises on a divisor [0.0] or [-0.0], and only then. *)
Definition float_truediv (x y : float) : result float :=
  match y with
  | S754_zero _ => Raise ZeroDivisionError
  | _ => Ok (SFdiv 53 1024 x y)
  end.

(** [sum] starts from the [int] 0 and adds the elements from left to
    right.  (CPython from 3.12 on also carries the rounding errors of the
    partial sums along; the results agree wherever no partial sum rounds.) *)
Definition float_sum (l : list float) : float :=
  foldl (SFadd 53 1024) (float_of_int 0) l.

(** [x <= y] is [True]. *)
Definition float_le (x y : float) : Prop := SFleb x y = true.

Global Instance float_le_dec : RelDecision float_le.
Proof. intros x y. unfold float_le. apply _. Defined.

(** [sorted] of a set: its elements are different from each other, and
    without a [nan] among them there is one increasing arrangement, which
    the merge sort computes.  (With a [nan] the order that Python returns
    depends on the order in which the set hands out its elements.) *)
Definition float_sorted (l : list float) : list float :=
  merge_sort float_le l.

Global Instance binary64 : Number float := {|
  py_int := float_of_int;
  py_add := SFadd 53 1024;
  py_sub := SFsub 53 1024;
  py_mul := SFmul 53 1024;
  py_truediv := float_truediv;
  py_lt := SFltb;
  py_le := SFleb;
  py_eq := SFeqb;
  py_sum := float_sum;
  py_sorted := float_sorted
|}.

(** [sorted] hands back the elements that it is given, in some order. *)
Class SortedPermutes (N : Type) `{!Number N} : Prop :=
  py_sorted_Permutation : ∀ l : list N, py_sorted l ≡ₚ l.

Global Instance Fraction_sorted : SortedPermutes Qc.
Proof. intros l. apply merge_sort_Permutation. Qed.

Global Instance binary64_sorted : SortedPermutes float.
Proof. intros l. apply merge_sort_Permutation. Qed.

(** The rational number that a finite [float] stands for. *)
Definition float_value (x : float) : option Qc :=
  match x with
  | S754_zero _ => Some 0
  | S754_finite s m e =>
      Some (Q2Qc (inject_Z (cond_Zopp s (Z.pos m)) * Qpower (2 # 1) e))
  | S754_infinity _ | S754_nan => None
  end.

Module Numeric.
Section number.
Context {N : Type} `{!Number N}.

(** Line 66 *)
Definition max_k (epsilon delta : N) : result N :=
  q ← py_truediv (py_mul (py_int 2) epsilon) delta;
  mret (py_add q (py_int 1)).

(** [s.add(x)]: [x] is stored unless the set holds an element equal to
    it. *)
Definition set_add (x : N) (s : list N) : list N :=
  if existsb (py_eq x) s then s else s ++ [x].

(** Lines 77-79, with [prices] a dict. *)
Definition add_combination_sums (prices : dict N) (capacity : Z)
    (combinations_sum_set : list N) : list N :=
  foldl (λ sums r,
           foldl (λ s combo, set_add (py_sum combo) s) sums
                 (combinations (dict_values prices) r))
        combinations_sum_set (range1 capacity).

(** Lines 86-92 *)
Fixpoint budget_row (max_k max_budget : N) (sums : list N)
    (row_student : list N) (min_budget : N) : list N :=
  match sums with
  | [] => row_student
  | combination_sum :: sums' =>
      if py_lt max_k (py_int (Z.of_nat (length row_student + 1)))
      then row_student
      else if py_lt min_budget combination_sum
              && py_le combination_sum max_budget
      then budget_row max_k max_budget sums'
                      (row_student ++ [combination_sum]) combination_sum
      else budget_row max_k max_budget sums' row_student min_budget
  end.

(** Lines 74-94 *)
Definition student_pass (instance : Instance) (initial_budgets : gmap key N)
    (epsilon max_k : N) (prices : dict N)
    (st : list N * gmap key (list N)) (student : key)
    : result (list N * gmap key (list N)) :=
  let '(combinations_sum_set, different_budgets) := st in
  let capacity := agent_capacity instance student in
  let combinations_sum_set :=
    add_combination_sums prices capacity combinations_sum_set in
  budget ← gmap_getitem initial_budgets student;
  let min_budget := py_sub budget epsilon in
  let max_budget := py_add budget epsilon in
  let row_student :=
    budget_row max_k max_budget (py_sorted combinations_sum_set)
               [min_budget] min_budget in
  mret (combinations_sum_set, <[student := row_student]> different_budgets).

(** Lines 66-95, with [prices] a dict; the set of sums is a list without
    elements that are equal under [==], in the order of insertion. *)
Definition find_different_budgets (instance : Instance)
    (initial_budgets : gmap key N) (epsilon delta : N) (prices : dict N)
    : result (gmap key (list N)) :=
  max_k ← max_k epsilon delta;
  st ← foldM (student_pass instance initial_budgets epsilon max_k prices)
             ([], ∅) (agents instance);
  mret st.2.

End number.
End Numeric.

(** ** The doctests and further inputs as data *)

Definition ratio (a : Z) (b : positive) : Qc := Q2Qc (a # b).

(** Modelled from the spec: the constructor
    [Instance(valuations=..., agent_capacities=..., item_capacities=...)] of
    [fairpyx], which is not among the sources, with a dict for each
    argument.  The agents are the keys of the valuations and the two
    accessors look a capacity up by identifier; in every instance below,
    [agent_capacities] has the keys of [valuations], in the same order. *)
Definition make_instance (valuations : dict (dict Qc))
    (agent_capacities item_capacities : dict Z) : Instance := {|
  num_of_agents := length valuations;
  num_of_items := length item_capacities;
  agents := dict_keys valuations;
  agent_capacity := λ agent, default 0%Z (dict_get agent_capacities agent);
  item_capacity := λ item, default 0%Z (dict_get item_capacities item);
  _agent_capacities := agent_capacities;
  _item_capacities := item_capacities;
  _valuations := valuations
|}.

Definition numbers (l : list (string * Z)) : dict Qc :=
  (λ kv, (KStr kv.1, Qc_of_Z kv.2)) <$> l.
Definition counts (l : list (string * Z)) : dict Z :=
  (λ kv, (KStr kv.1, kv.2)) <$> l.

(** The first doctest of [find_different_budgets]. *)
Definition alice_bob : Instance :=
  make_instance
    [(KStr "Alice", numbers [("x", 5); ("y", 5); ("z", 1)]%Z);
     (KStr "Bob", numbers [("x", 4); ("y", 6); ("z", 4)]%Z)]
    (counts [("Alice", 2); ("Bob", 2)]%Z)
    (counts [("x", 1); ("y", 2); ("z", 2)]%Z).
Definition alice_bob_budgets : gmap key Qc :=
  list_to_map (numbers [("Alice", 5); ("Bob", 4)]%Z).
Definition c1_c2_c3 : price_table :=
  PriceDict (numbers [("c1", 1); ("c2", 2); ("c3", 3)]%Z).

(** The same two students when Bob may take one course only, and two
    courses. *)
Definition alice2_bob1 : Instance :=
  make_instance
    [(KStr "Alice", numbers [("x", 5); ("y", 5)]%Z);
     (KStr "Bob", numbers [("x", 4); ("y", 6)]%Z)]
    (counts [("Alice", 2); ("Bob", 1)]%Z)
    (counts [("x", 1); ("y", 2)]%Z).
Definition c1_c2 : price_table :=
  PriceDict (numbers [("c1", 1); ("c2", 2)]%Z).

(** The first doctest of [find_ACEEI_with_EFTB]. *)
Definition avi_beni : Instance :=
  make_instance
    [(KStr "avi", numbers [("x", 1); ("y", 2); ("z", 4)]%Z);
     (KStr "beni", numbers [("x", 2); ("y", 3); ("z", 1)]%Z)]
    (counts [("avi", 2); ("beni", 2)]%Z)
    (counts [("x", 1); ("y", 1); ("z", 2)]%Z).
Definition avi_beni_budgets : gmap key Qc :=
  list_to_map (numbers [("avi", 2); ("beni", 3)]%Z).

(** A [float] from a mantissa and a binary exponent:
    [float(m) * 2.0 ** e]. *)
Definition dyadic (m e : Z) : float := binary_normalize 53 1024 m e false.

(** [1 - 2 ** -53], the largest [float] below 1. *)
Definition almost_one : float := dyadic (2 ^ 53 - 1) (-53).

(** One student who takes one course out of two, with a budget of
    [10.0]. *)
Definition carol : Instance :=
  make_instance [(KStr "Carol", numbers [("x", 1); ("y", 1)]%Z)]
    (counts [("Carol", 1)]%Z) (counts [("x", 1); ("y", 1)]%Z).
Definition carol_budgets : gmap key float := {[ KStr "Carol" := dyadic 10 0 ]}.
Definition c1_c2_floats (c1 c2 : float) : dict float :=
  [(KStr "c1", c1); (KStr "c2", c2)].

(** ** The properties under verification *)

(** The allocation has a row for the agent of index [student], and the row
    has an entry for the course: [allocation[student][course]] raises no
    [IndexError]. *)
Definition has_entry (allocation : list (list Z)) (course student : nat)
    : Prop :=
  is_Some (allocation !! student ≫= λ row, row !! course).

Global Instance has_entry_dec allocation course student :
  Decision (has_entry allocation course student).
Proof. unfold has_entry. apply _. Defined.

(** A sum of between 1 and [capacity] prices of distinct items. *)
Definition bundle_price (prices : list Qc) (capacity : Z) (b : Qc) : Prop :=
  ∃ combo, combo `sublist_of` prices
           ∧ (1 ≤ Z.of_nat (length combo) ≤ capacity)%Z
           ∧ sum_list combo = b.

(** The same on any numbers, with the built-in [sum]. *)
Definition bundle_sum {N} `{!Number N} (prices : list N) (capacity : Z)
    (b : N) : Prop :=
  ∃ combo, combo `sublist_of` prices
           ∧ (1 ≤ Z.of_nat (length combo) ≤ capacity)%Z
           ∧ py_sum combo = b.

(** [x < y] is [True]. *)
Definition below {N} `{!Number N} (x y : N) : Prop := py_lt x y = true.

(** A row of candidate budgets as the code computes it: it starts at the
    number computed for [initial_budget - epsilon], each entry is below the
    next one under [<], and each entry after the first passes [<=] against
    the number computed for [initial_budget + epsilon]. *)
Definition in_window {N} `{!Number N} (initial_budget epsilon : N)
    (row : list N) : Prop :=
  head row = Some (py_sub initial_budget epsilon)
  ∧ Sorted below row
  ∧ Forall (λ b, py_le b (py_add initial_budget epsilon) = true) (tail row).

(** [len(row) > max_k] is [False]. *)
Definition within_cap {N} `{!Number N} (max_k : N) (row : list N) : Prop :=
  py_lt max_k (py_int (Z.of_nat (length row))) = false.

(** A [set] of exact rationals, held as a list without duplicates. *)
Definition represents (l : list Qc) (s : gset Qc) : Prop :=
  NoDup l ∧ s = list_to_set l.

(** A run that is refused before any stage is entered: an exception and an
    empty log. *)
Definition rejected (run : option (traced pyval)) : Prop :=
  ∃ e, run = Some (Traced [] (Raise e)).

(** An optimizer that answers with the four values of its contract. *)
Definition cleared : optimizer :=
  λ a instance prices t initial_budgets,
    Ok (PTuple [PNone; PNum 0; PMat []; PVec []]).

(** A matrix of rows of vectors that are all zero and as long as the
    prices. *)
Definition zero_vectors (prices : price_table) (matrix_a : list (list (list Z)))
    : Prop :=
  Forall (Forall (λ v, v = replicate (price_len prices) 0%Z)) matrix_a.

(** * Verification *)

Local Close Scope Qc_scope.

(** A closed decidable statement, by evaluation of its decision procedure. *)
Ltac by_eval := apply (bool_decide_unpack _); vm_compute; exact I.

(** ** The error monad *)

Lemma bind_Ok {A B} (f : A → result B) (a : A) : (Ok a ≫= f) = f a.
Proof. reflexivity. Qed.

Lemma bind_Ok_inv {A B} (m : result A) (f : A → result B) (b : B) :
  (m ≫= f) = Ok b → ∃ a, m = Ok a ∧ f a = Ok b.
Proof. destruct m as [a|e]; [eauto | discriminate]. Qed.

Lemma list_getitem_Ok {A} (l : list A) (i : nat) (x : A) :
  l !! i = Some x → list_getitem l i = Ok x.
Proof. unfold list_getitem. by intros ->. Qed.

Lemma list_getitem_None {A} (l : list A) (i : nat) :
  l !! i = None → list_getitem l i = Raise IndexError.
Proof. unfold list_getitem. by intros ->. Qed.

Lemma foldM_cons {M : Type → Type} `{!MBind M, !MRet M} {A B}
    (F : B → A → M B) (b : B) (a : A) (l : list A) :
  foldM F b (a :: l) = F b a ≫= λ b', foldM F b' l.
Proof. reflexivity. Qed.

(** An invariant of a loop holds of its result when the loop returns. *)
Lemma foldM_invariant {A B} (P : B → Prop) (F : B → A → result B)
    (l : list A) (b b' : B) :
  (∀ b a b', P b → F b a = Ok b' → P b') →
  P b → foldM F b l = Ok b' → P b'.
Proof.
  intros HF. revert b. induction l as [|a l IH]; intros b Hb.
  - simpl. by intros [= <-].
  - simpl. intros Hfold. apply bind_Ok_inv in Hfold as (b1 & Hb1 & Hfold).
    eauto.
Qed.

Lemma foldM_total {A B} (F : B → A → result B) (l : list A) (b : B) :
  (∀ b a, ∃ b', F b a = Ok b') → ∃ b', foldM F b l = Ok b'.
Proof.
  intros HF. revert b. induction l as [|a l IH]; intros b; [by eexists|].
  simpl. destruct (HF b a) as [b1 ->]. apply IH.
Qed.

Lemma foldM_raises {A B} (E : exn) (F : B → A → result B) (l : list A)
    (b : B) (e : exn) :
  (∀ b a e, F b a = Raise e → e = E) → foldM F b l = Raise e → e = E.
Proof.
  intros HF. revert b. induction l as [|a l IH]; intros b; [done|].
  simpl. destruct (F b a) as [b1|e1] eqn:Hb; simpl; [by apply IH|].
  intros [= <-]. eauto.
Qed.

(** ** [excess_demand] and [clipped_excess_demand] *)

(** The inner loop of [excess_demand] on the rows of the agents from
    [length pre] on: it returns when each of them has an entry for the
    course, and raises [IndexError] at the first one that has none. *)
Lemma column_sum_rows course (n : nat) (pre : list (list Z)) (l : list (list Z))
    (acc : Z) :
  let loop :=
    foldM (λ sum student,
             row ← list_getitem (pre ++ l) student;
             a ← list_getitem row course;
             mret (sum + a)%Z)
          acc (seq (length pre) n) in
  ((∀ i, i < n → has_entry (pre ++ l) course (length pre + i)) →
   ∃ sum, loop = Ok sum)
  ∧ (∀ i, i < n → ¬ has_entry (pre ++ l) course (length pre + i) →
     loop = Raise IndexError).
Proof.
  revert pre l acc. induction n as [|n IH]; intros pre l acc loop.
  { split; [by eexists | intros; lia]. }
  subst loop. rewrite <- cons_seq, foldM_cons.
  assert (∀ row, (pre ++ l) !! length pre = Some row →
            l = row :: tail l) as Hsplit.
  { intros row. rewrite lookup_app_r by lia.
    replace (length pre - length pre) with 0 by lia.
    by destruct l; intros [= ->]. }
  assert (∀ row i, l = row :: tail l →
            length (pre ++ [row]) + i = length pre + S i) as Hlen.
  { intros. rewrite length_app. simpl. lia. }
  unfold has_entry in *.
  destruct ((pre ++ l) !! length pre) as [row|] eqn:Hrow.
  - pose proof (Hsplit row eq_refl) as Hl.
    rewrite (list_getitem_Ok _ _ row), bind_Ok by done.
    destruct (row !! course) as [a|] eqn:Ha.
    + rewrite (list_getitem_Ok _ _ a), !bind_Ok by done.
      destruct (IH (pre ++ [row]) (tail l) (acc + a)%Z) as [IHok IHraise].
      rewrite <- (assoc_L (++)) in IHok, IHraise. simpl in IHok, IHraise.
      rewrite <- Hl in IHok, IHraise.
      replace (length (pre ++ [row])) with (S (length pre)) in IHok, IHraise
        by (rewrite length_app; simpl; lia).
      split.
      * intros Hall. apply IHok. intros i Hi.
        replace (S (length pre) + i) with (length pre + S i) by lia.
        apply Hall. lia.
      * intros [|i] Hi Hnone.
        -- exfalso. apply Hnone.
           replace (length pre + 0) with (length pre) by lia.
           rewrite Hrow. simpl. by rewrite Ha.
        -- apply (IHraise i); [lia|].
           by replace (S (length pre) + i) with (length pre + S i) by lia.
    + rewrite (list_getitem_None row) by done. simpl. split; [|done].
      intros Hall. specialize (Hall 0 ltac:(lia)).
      replace (length pre + 0) with (length pre) in Hall by lia.
      rewrite Hrow in Hall. simpl in Hall. rewrite Ha in Hall.
      by destruct Hall.
  - rewrite (list_getitem_None (pre ++ l)) by done. simpl. split; [|done].
    intros Hall. specialize (Hall 0 ltac:(lia)).
    replace (length pre + 0) with (length pre) in Hall by lia.
    rewrite Hrow in Hall. by destruct Hall.
Qed.

Lemma column_sum_cases instance allocation course :
  ((∀ student, student < num_of_agents instance →
      has_entry allocation course student) →
   ∃ sum, column_sum instance allocation course = Ok sum)
  ∧ (∀ student, student < num_of_agents instance →
       ¬ has_entry allocation course student →
       column_sum instance allocation course = Raise IndexError).
Proof.
  apply (column_sum_rows course (num_of_agents instance) [] allocation 0%Z).
Qed.

(** With an item, the call ends in the first pass of the loop over the
    courses: with what the sum of the first column raises, or with the
    [TypeError] of line 29. *)
Lemma excess_demand_first_course instance initial_budgets prices allocation :
  num_of_items instance ≠ 0 →
  excess_demand instance initial_budgets prices allocation
  = (column_sum instance allocation 0 ≫= λ _, Raise TypeError).
Proof.
  unfold excess_demand, range. intros Hitems.
  destruct (num_of_items instance) as [|n]; [done|].
  rewrite <- cons_seq, foldM_cons.
  by destruct (column_sum instance allocation 0).
Qed.

Lemma excess_demand_either instance initial_budgets prices allocation :
  num_of_items instance ≠ 0 →
  excess_demand instance initial_budgets prices allocation = Raise TypeError
  ∨ excess_demand instance initial_budgets prices allocation
    = Raise IndexError.
Proof.
  intros Hitems. rewrite excess_demand_first_course by done.
  destruct (column_sum instance allocation 0) as [sum|e] eqn:Hsum; [by left|].
  right. simpl. f_equal. revert Hsum. unfold column_sum.
  apply foldM_raises. intros sum student e'.
  unfold list_getitem.
  destruct (allocation !! student) as [row|]; simpl; [|congruence].
  destruct (row !! 0) as [a|]; simpl; [done|congruence].
Qed.

Lemma clipped_excess_demand_unfold instance initial_budgets prices allocation :
  clipped_excess_demand instance initial_budgets prices allocation
  = excess_demand instance initial_budgets prices allocation.
Proof.
  unfold clipped_excess_demand.
  destruct (decide (num_of_items instance = 0)) as [Hzero|Hitems].
  - unfold excess_demand. by rewrite Hzero.
  - by destruct (excess_demand_either instance initial_budgets prices
                   allocation Hitems) as [-> | ->].
Qed.

(** C6. For every instance with an item and every allocation,
    [excess_demand] returns no vector: subscripting the accessor
    [instance.item_capacity] on line 29 raises [TypeError] as soon as the
    first column is summed, and the sum raises [IndexError] before that
    when the allocation has no entry for some agent. *)
Theorem excess_demand_raises instance initial_budgets prices allocation :
  num_of_items instance ≠ 0 →
  excess_demand instance initial_budgets prices allocation = Raise TypeError
  ∨ excess_demand instance initial_budgets prices allocation
    = Raise IndexError.
Proof. apply excess_demand_either. Qed.

(** The first doctest's instance and a binary allocation with one row per
    agent and one column per item. *)
Lemma excess_demand_raises_witness :
  excess_demand alice_bob alice_bob_budgets c1_c2_c3 [[1; 1; 0]; [1; 0; 1]]%Z
  = Raise TypeError
  ∨ excess_demand alice_bob alice_bob_budgets c1_c2_c3
      [[1; 1; 0]; [1; 0; 1]]%Z
    = Raise IndexError.
Proof.
  apply (excess_demand_raises alice_bob alice_bob_budgets c1_c2_c3
           [[1; 1; 0]; [1; 0; 1]]%Z).
  discriminate.
Defined.

(** C7. For every instance with an item, [clipped_excess_demand] raises the
    exception of its call of [excess_demand] on line 34, before line 35
    reads a price or clips an entry. *)
Theorem clipped_excess_demand_raises instance initial_budgets prices
    allocation :
  num_of_items instance ≠ 0 →
  ∃ e, excess_demand instance initial_budgets prices allocation = Raise e
       ∧ clipped_excess_demand instance initial_budgets prices allocation
         = Raise e.
Proof.
  intros Hitems. rewrite clipped_excess_demand_unfold.
  destruct (excess_demand_either instance initial_budgets prices
              allocation Hitems) as [-> | ->]; eauto.
Qed.

(** The same allocation with prices 0, 1 and 0. *)
Lemma clipped_excess_demand_raises_witness :
  ∃ e, excess_demand alice_bob alice_bob_budgets
         (PriceList (Qc_of_Z <$> [0; 1; 0]%Z)) [[1; 1; 0]; [1; 0; 1]]%Z
       = Raise e
       ∧ clipped_excess_demand alice_bob alice_bob_budgets
           (PriceList (Qc_of_Z <$> [0; 1; 0]%Z)) [[1; 1; 0]; [1; 0; 1]]%Z
         = Raise e.
Proof.
  apply (clipped_excess_demand_raises alice_bob alice_bob_budgets
           (PriceList (Qc_of_Z <$> [0; 1; 0]%Z)) [[1; 1; 0]; [1; 0; 1]]%Z).
  discriminate.
Defined.

(** X1. With an item, and an entry in the first column of the allocation
    for every agent, [excess_demand] raises [TypeError]. *)
Theorem excess_demand_type_error instance initial_budgets prices allocation :
  num_of_items instance ≠ 0 →
  (∀ student, student < num_of_agents instance →
     has_entry allocation 0 student) →
  excess_demand instance initial_budgets prices allocation = Raise TypeError.
Proof.
  intros Hitems Hall. rewrite excess_demand_first_course by done.
  destruct (column_sum_cases instance allocation 0) as [Hok _].
  by destruct (Hok Hall) as [sum ->].
Qed.

Lemma excess_demand_type_error_witness :
  excess_demand alice_bob alice_bob_budgets c1_c2_c3 [[1; 1; 0]; [1; 0; 1]]%Z
  = Raise TypeError.
Proof.
  apply (excess_demand_type_error alice_bob alice_bob_budgets c1_c2_c3
           [[1; 1; 0]; [1; 0; 1]]%Z).
  - discriminate.
  - intros student Hstudent. change (student < 2) in Hstudent.
    destruct student as [|[|student]]; [by_eval | by_eval | lia].
Defined.

(** X2. With an item, and an agent for whom the allocation has no row or
    an empty row, [excess_demand] raises [IndexError]. *)
Theorem excess_demand_index_error instance initial_budgets prices allocation
    student :
  num_of_items instance ≠ 0 →
  student < num_of_agents instance →
  ¬ has_entry allocation 0 student →
  excess_demand instance initial_budgets prices allocation = Raise IndexError.
Proof.
  intros Hitems Hstudent Hnone. rewrite excess_demand_first_course by done.
  destruct (column_sum_cases instance allocation 0) as [_ Hraise].
  by rewrite (Hraise student).
Qed.

(** Bob's row is missing. *)
Lemma excess_demand_index_error_witness :
  excess_demand alice_bob alice_bob_budgets c1_c2_c3 [[1; 1; 0]]%Z
  = Raise IndexError.
Proof.
  apply (excess_demand_index_error alice_bob alice_bob_budgets c1_c2_c3
           [[1; 1; 0]]%Z 1).
  - discriminate.
  - by_eval.
  - by_eval.
Defined.

(** X3. [clipped_excess_demand] ends as its call of [excess_demand] does,
    on every input: with the same exception, or with the same empty vector
    when the instance has no item.  No entry is ever clipped. *)
Theorem clipped_excess_demand_is_excess_demand instance initial_budgets prices
    allocation :
  clipped_excess_demand instance initial_budgets prices allocation
  = excess_demand instance initial_budgets prices allocation.
Proof. apply clipped_excess_demand_unfold. Qed.

(** X4. [excess_demand] returns exactly on the instances without items,
    and then it returns the empty vector. *)
Theorem excess_demand_returns_iff instance initial_budgets prices allocation
    z :
  excess_demand instance initial_budgets prices allocation = Ok z
  ↔ num_of_items instance = 0 ∧ z = [].
Proof.
  split.
  - intros Hz. destruct (decide (num_of_items instance = 0)) as [Hzero|Hitems].
    + split; [done|]. revert Hz. unfold excess_demand. rewrite Hzero.
      by intros [= <-].
    + destruct (excess_demand_either instance initial_budgets prices
                  allocation Hitems) as [H|H]; by rewrite H in Hz.
  - intros [Hzero ->]. unfold excess_demand. by rewrite Hzero.
Qed.

(** ** The traced monad *)

Lemma outcome_bind {A B} (m : traced A) (f : A → traced B) (a : A) :
  outcome m = Ok a → outcome (m ≫= f) = outcome (f a).
Proof. unfold mbind, traced_bind. by intros ->. Qed.

Lemma outcome_bind_inv {A B} (m : traced A) (f : A → traced B) (b : B) :
  outcome (m ≫= f) = Ok b → ∃ a, outcome m = Ok a ∧ outcome (f a) = Ok b.
Proof.
  unfold mbind, traced_bind. destruct (outcome m) as [a|e]; [eauto | done].
Qed.

Lemma outcome_foldM_invariant {A B} (P : B → Prop) (F : B → A → traced B)
    (l : list A) (b b' : B) :
  (∀ b a b', P b → outcome (F b a) = Ok b' → P b') →
  P b → outcome (foldM F b l) = Ok b' → P b'.
Proof.
  intros HF. revert b. induction l as [|a l IH]; intros b Hb.
  - simpl. by intros [= <-].
  - simpl. intros Hfold.
    apply outcome_bind_inv in Hfold as (b1 & Hb1 & Hfold). eauto.
Qed.

Lemma outcome_bind_cases {A B} (m : traced A) (f : A → traced B) :
  outcome (m ≫= f)
  = match outcome m with Ok a => outcome (f a) | Raise e => Raise e end.
Proof. unfold mbind, traced_bind. by destruct (outcome m). Qed.

Lemma trace_bind {A B} (m : traced A) (f : A → traced B) :
  trace (m ≫= f)
  = trace m ++ match outcome m with Ok a => trace (f a) | Raise _ => [] end.
Proof.
  unfold mbind, traced_bind. destruct (outcome m); simpl; [done|].
  by rewrite app_nil_r.
Qed.

(** ** [find_different_budgets] on exact rationals *)

Local Open Scope Qc_scope.



Lemma student_pass_inv instance initial_budgets epsilon max_k prices
    sums db student sums' db' :
  outcome (student_pass instance initial_budgets epsilon max_k prices
                        (sums, db) student) = Ok (sums', db') →
  ∃ budget,
    add_combination_sums prices (agent_capacity instance student) sums
    = Ok sums'
    ∧ initial_budgets !! student = Some budget
    ∧ db' = <[student := budget_row max_k (budget + epsilon) (sorted sums')
                           [budget - epsilon] (budget - epsilon)]> db.
Proof.
  unfold student_pass. intros H.
  apply outcome_bind_inv in H as ([] & _ & H).
  apply outcome_bind_inv in H as (s1 & Hs1 & H).
  apply outcome_bind_inv in H as (budget & Hb & H).
  simpl in *. injection H as <- <-. exists budget. split; [done|].
  unfold gmap_getitem in Hb.
  destruct (initial_budgets !! student) as [b|]; [|done].
  by injection Hb as ->.
Qed.

Lemma student_pass_Ok instance initial_budgets epsilon max_k prices
    sums db student sums' budget :
  add_combination_sums prices (agent_capacity instance student) sums
  = Ok sums' →
  initial_budgets !! student = Some budget →
  outcome (student_pass instance initial_budgets epsilon max_k prices
                        (sums, db) student)
  = Ok (sums', <[student := budget_row max_k (budget + epsilon) (sorted sums')
                              [budget - epsilon] (budget - epsilon)]> db).
Proof.
  intros Hsums Hbudget. unfold student_pass.
  erewrite outcome_bind by done. rewrite Hsums.
  erewrite outcome_bind by done.
  unfold gmap_getitem. rewrite Hbudget.
  by erewrite outcome_bind by done.
Qed.

(** X19. With prices in a dict, a step that is not zero and a budget for
    every agent, [find_different_budgets] returns, with a row for every
    agent. *)
Lemma find_different_budgets_returns instance initial_budgets epsilon delta d :
  delta ≠ 0 →
  (∀ student, student ∈ agents instance →
     is_Some (initial_budgets !! student)) →
  ∃ db,
    outcome (find_different_budgets instance initial_budgets epsilon delta
                                    (PriceDict d)) = Ok db
    ∧ ∀ student, student ∈ agents instance → is_Some (db !! student).
Proof.
  intros Hdelta Hbudgets. unfold find_different_budgets.
  unfold py_div. rewrite decide_False by done. simpl.
  set (max_k := 2 * epsilon / delta + 1).
  assert (∀ l st, (∀ s, s ∈ l → is_Some (initial_budgets !! s)) →
    ∃ st', outcome (foldM (student_pass instance initial_budgets epsilon
                             max_k (PriceDict d)) st l) = Ok st'
           ∧ ∀ s, s ∈ l ∨ is_Some (st.2 !! s) → is_Some (st'.2 !! s))
    as Hloop.
  { induction l as [|k l IH]; intros [sums db] Hl.
    - eexists. split; [done|]. intros s [Hs|Hs]; [|done].
      by apply elem_of_nil in Hs.
    - destruct (foldM_total
        (λ sums r, values ← price_values (PriceDict d);
           mret (foldl (λ s combo, {[ sum_list combo ]} ∪ s) sums
                       (combinations values r)))
        (range1 (agent_capacity instance k)) sums) as [sums' Hsums];
        [by eexists|].
      destruct (Hl k) as [budget Hbudget]; [by left|].
      set (row := budget_row max_k (budget + epsilon) (sorted sums')
                             [budget - epsilon] (budget - epsilon)).
      destruct (IH (sums', <[k := row]> db)) as (st' & Hst' & Hdom).
      { intros s Hs. apply Hl. by right. }
      exists st'. split.
      + rewrite foldM_cons.
        by erewrite outcome_bind by (by apply student_pass_Ok).
      + intros s Hs. apply Hdom. simpl.
        destruct (decide (k = s)) as [->|Hne].
        * right. by rewrite lookup_insert_eq.
        * rewrite lookup_insert_ne by done.
          destruct Hs as [Hs|Hs]; [|by right].
          apply elem_of_cons in Hs as [->|Hs]; [done|by left]. }
  destruct (Hloop (agents instance) (∅, ∅) Hbudgets) as (st' & Hst' & Hdom).
  exists st'.2. split.
  - by rewrite (outcome_bind _ _ st').
  - intros s Hs. apply Hdom. by left.
Qed.

(** C5 at a failing input.  Alice may take two courses and Bob one; the
    prices are 1 and 2, both budgets are 2 and [epsilon] is 1.  Bob's row
    holds 3 = 1 + 2, the price of a bundle of two courses, which is not
    the price of any bundle of one course: the set of sums is created once,
    before the loop over the students, and keeps Alice's sums. *)
Theorem find_different_budgets_keeps_sums :
  ∃ db,
    outcome (find_different_budgets alice2_bob1
               (list_to_map (numbers [("Alice", 2); ("Bob", 2)]%Z))
               (Qc_of_Z 1) (ratio 1 2) c1_c2) = Ok db
    ∧ db !! KStr "Bob" = Some (Qc_of_Z <$> [1; 2; 3]%Z)
    ∧ agent_capacity alice2_bob1 (KStr "Bob") = 1%Z
    ∧ ¬ bundle_price (Qc_of_Z <$> [1; 2]%Z) 1 (Qc_of_Z 3).
Proof.
  exists (list_to_map [(KStr "Alice", Qc_of_Z <$> [1; 2; 3]%Z);
                       (KStr "Bob", Qc_of_Z <$> [1; 2; 3]%Z)]).
  split; [by_eval|]. split; [by_eval|]. split; [done|].
  intros (combo & Hsub & Hlen & Hsum).
  destruct combo as [|x [|y combo]]; simpl in Hlen; try lia.
  assert (x ∈ Qc_of_Z <$> [1; 2]%Z) as Hx.
  { eapply elem_of_sublist; [|exact Hsub]. by left. }
  simpl in Hx. apply elem_of_cons in Hx as [->|Hx].
  { revert Hsum. by_eval. }
  apply elem_of_cons in Hx as [->|Hx].
  { revert Hsum. by_eval. }
  by apply elem_of_nil in Hx.
Qed.


(** ** [find_different_budgets] on exact rationals: keys and errors *)


(** The passes over a list of students: which keys the dict of rows has
    afterwards. *)
Lemma student_passes_keys instance initial_budgets epsilon max_k prices
    (l : list key) st st' :
  outcome (foldM (student_pass instance initial_budgets epsilon max_k prices)
                 st l) = Ok st' →
  ∀ k, is_Some (st'.2 !! k) ↔ k ∈ l ∨ is_Some (st.2 !! k).
Proof.
  revert st. induction l as [|a l IH]; intros [sums db] Hfold k.
  - injection Hfold as <-. split; [by right|].
    intros [Hk|Hk]; [by apply elem_of_nil in Hk | done].
  - rewrite foldM_cons in Hfold.
    apply outcome_bind_inv in Hfold as ([sums1 db1] & Hpass & Hfold).
    apply student_pass_inv in Hpass as (budget & _ & _ & ->).
    rewrite (IH _ Hfold k). simpl. rewrite elem_of_cons.
    destruct (decide (a = k)) as [->|Hne].
    + rewrite lookup_insert_eq. split; [by left; left|by right].
    + rewrite lookup_insert_ne by done. intuition congruence.
Qed.

(** X7. The dict that [find_different_budgets] returns has a row for every
    agent of the instance and for nobody else. *)
Theorem find_different_budgets_keys instance initial_budgets epsilon delta
    prices db student :
  outcome (find_different_budgets instance initial_budgets epsilon delta prices)
  = Ok db →
  is_Some (db !! student) ↔ student ∈ agents instance.
Proof.
  unfold find_different_budgets. intros H.
  apply outcome_bind_inv in H as (max_k & _ & H).
  apply outcome_bind_inv in H as (st & Hfold & [= <-]).
  rewrite (student_passes_keys _ _ _ _ _ _ _ _ Hfold). simpl.
  rewrite lookup_empty. split; [intros [?|[? ?]]; done | by left].
Qed.

Lemma find_different_budgets_keys_witness :
  is_Some ((list_to_map [(KStr "Alice", Qc_of_Z <$> [3; 4; 5]%Z);
                         (KStr "Bob", Qc_of_Z <$> [2; 3; 4; 5]%Z)]
            : gmap key (list Qc)) !! KStr "Eve")
  ↔ KStr "Eve" ∈ agents alice_bob.
Proof.
  apply (find_different_budgets_keys alice_bob alice_bob_budgets
           (Qc_of_Z 2) (ratio 1 2) c1_c2_c3).
  by_eval.
Defined.

(** The first doctest. *)
Lemma find_different_budgets_returns_witness :
  ∃ db,
    outcome (find_different_budgets alice_bob alice_bob_budgets (Qc_of_Z 2)
               (ratio 1 2) c1_c2_c3) = Ok db
    ∧ ∀ student, student ∈ agents alice_bob → is_Some (db !! student).
Proof.
  apply (find_different_budgets_returns alice_bob alice_bob_budgets
           (Qc_of_Z 2) (ratio 1 2)
           (numbers [("c1", 1); ("c2", 2); ("c3", 3)]%Z)).
  - by_eval.
  - intros student Hs.
    repeat (apply elem_of_cons in Hs as [->|Hs]; [by_eval|]).
    by apply elem_of_nil in Hs.
Defined.

Lemma add_combination_sums_dict d capacity sums :
  ∃ sums', add_combination_sums (PriceDict d) capacity sums = Ok sums'.
Proof. unfold add_combination_sums. apply foldM_total. by eexists. Qed.

Lemma add_combination_sums_list l capacity sums :
  add_combination_sums (PriceList l) capacity sums
  = if decide (1 ≤ capacity)%Z then Raise AttributeError else Ok sums.
Proof.
  unfold add_combination_sums, range1. case_decide as Hcap.
  - destruct (Z.to_nat capacity) as [|n] eqn:Hn; [lia|]. done.
  - by replace (Z.to_nat capacity) with 0%nat by lia.
Qed.

Lemma student_pass_Raise instance initial_budgets epsilon max_k prices st
    student e :
  (add_combination_sums prices (agent_capacity instance student) st.1
   ≫= λ _, gmap_getitem initial_budgets student) = Raise e →
  outcome (student_pass instance initial_budgets epsilon max_k prices st
                        student) = Raise e.
Proof.
  destruct st as [sums db]. unfold student_pass. simpl. intros H.
  unfold traced_bind. simpl.
  destruct (add_combination_sums prices _ sums) as [sums'|e'].
  - rewrite bind_Ok in H. simpl. by rewrite H.
  - simpl. by injection H as ->.
Qed.

(** X8. With prices in a dict and a step that is not zero,
    [find_different_budgets] raises [KeyError] as soon as one agent has no
    initial budget, whatever rows were built before. *)
Theorem find_different_budgets_key_error instance initial_budgets epsilon
    delta d student :
  delta ≠ 0 →
  student ∈ agents instance →
  initial_budgets !! student = None →
  outcome (find_different_budgets instance initial_budgets epsilon delta
                                  (PriceDict d)) = Raise KeyError.
Proof.
  intros Hdelta Hstudent Hmissing. unfold find_different_budgets, py_div.
  rewrite decide_False by done. rewrite outcome_bind_cases.
  cbn [lift outcome mbind result_bind mret result_ret].
  rewrite outcome_bind_cases.
  set (max_k := 2 * epsilon / delta + 1).
  assert (∀ l st, student ∈ l →
    outcome (foldM (student_pass instance initial_budgets epsilon max_k
                                 (PriceDict d)) st l) = Raise KeyError)
    as Hloop; [|by rewrite Hloop].
  induction l as [|a l IH]; intros [sums db] Hl.
  { by apply elem_of_nil in Hl. }
  rewrite foldM_cons, outcome_bind_cases.
  destruct (add_combination_sums_dict d (agent_capacity instance a) sums)
    as [sums' Hsums].
  destruct (initial_budgets !! a) as [budget|] eqn:Hbudget.
  - rewrite (student_pass_Ok _ _ _ _ _ _ _ _ sums' budget) by done.
    apply IH. apply elem_of_cons in Hl as [->|Hl]; [congruence|done].
  - rewrite (student_pass_Raise _ _ _ _ _ _ _ KeyError); [done|].
    simpl. rewrite Hsums, bind_Ok. unfold gmap_getitem. by rewrite Hbudget.
Qed.

(** The first doctest without a budget for Bob. *)
Lemma find_different_budgets_key_error_witness :
  outcome (find_different_budgets alice_bob
             (list_to_map (numbers [("Alice", 5)]%Z)) (Qc_of_Z 2) (ratio 1 2)
             c1_c2_c3) = Raise KeyError.
Proof.
  apply (find_different_budgets_key_error alice_bob
           (list_to_map (numbers [("Alice", 5)]%Z)) (Qc_of_Z 2) (ratio 1 2)
           (numbers [("c1", 1); ("c2", 2); ("c3", 3)]%Z) (KStr "Bob")).
  - by_eval.
  - by_eval.
  - reflexivity.
Defined.

(** X9. With prices in a list, the form in which [find_ACEEI_with_EFTB]
    holds them, [find_different_budgets] raises [AttributeError] when every
    agent has a budget and some agent may take at least one course: it
    calls [.values()] on the list. *)
Theorem find_different_budgets_attribute_error instance initial_budgets
    epsilon delta p student :
  delta ≠ 0 →
  (∀ a, a ∈ agents instance → is_Some (initial_budgets !! a)) →
  student ∈ agents instance →
  (1 ≤ agent_capacity instance student)%Z →
  outcome (find_different_budgets instance initial_budgets epsilon delta
                                  (PriceList p)) = Raise AttributeError.
Proof.
  intros Hdelta Hbudgets Hstudent Hcap. unfold find_different_budgets, py_div.
  rewrite decide_False by done. rewrite outcome_bind_cases.
  cbn [lift outcome mbind result_bind mret result_ret].
  rewrite outcome_bind_cases.
  set (max_k := 2 * epsilon / delta + 1).
  assert (∀ l st, student ∈ l →
    (∀ a, a ∈ l → is_Some (initial_budgets !! a)) →
    outcome (foldM (student_pass instance initial_budgets epsilon max_k
                                 (PriceList p)) st l) = Raise AttributeError)
    as Hloop; [|by rewrite Hloop].
  induction l as [|a l IH]; intros [sums db] Hl Hb.
  { by apply elem_of_nil in Hl. }
  rewrite foldM_cons, outcome_bind_cases.
  destruct (decide (1 ≤ agent_capacity instance a)%Z) as [Ha|Ha].
  - rewrite (student_pass_Raise _ _ _ _ _ _ _ AttributeError); [done|].
    simpl. rewrite add_combination_sums_list. by rewrite decide_True.
  - destruct (Hb a) as [budget Hbudget]; [by left|].
    rewrite (student_pass_Ok _ _ _ _ _ _ _ _ sums budget); [| |done].
    + apply IH; [|intros; apply Hb; by right].
      apply elem_of_cons in Hl as [->|Hl]; [done|done].
    + rewrite add_combination_sums_list. by rewrite decide_False.
Qed.

(** The first doctest with its prices in a list. *)
Lemma find_different_budgets_attribute_error_witness :
  outcome (find_different_budgets alice_bob alice_bob_budgets (Qc_of_Z 2)
             (ratio 1 2) (PriceList (Qc_of_Z <$> [1; 2; 3]%Z)))
  = Raise AttributeError.
Proof.
  apply (find_different_budgets_attribute_error alice_bob alice_bob_budgets
           (Qc_of_Z 2) (ratio 1 2) (Qc_of_Z <$> [1; 2; 3]%Z) (KStr "Bob")).
  - by_eval.
  - intros student Hs.
    repeat (apply elem_of_cons in Hs as [->|Hs]; [by_eval|]).
    by apply elem_of_nil in Hs.
  - by_eval.
  - by_eval.
Defined.
(** ** [itertools.combinations] *)

Lemma combinations_sound {A} (l : list A) (r : nat) (c : list A) :
  c ∈ combinations l r → c `sublist_of` l ∧ length c = r.
Proof.
  revert r c. induction l as [|x l IH]; intros [|r] c Hc; simpl in Hc.
  - apply list_elem_of_singleton in Hc as ->. split; [constructor|done].
  - by apply elem_of_nil in Hc.
  - apply list_elem_of_singleton in Hc as ->.
    split; [apply sublist_nil_l|done].
  - apply elem_of_app in Hc as [Hc|Hc].
    + apply list_elem_of_fmap in Hc as (c' & -> & Hc').
      destruct (IH _ _ Hc') as [Hsub Hlen].
      split; [by constructor | by rewrite <- Hlen].
    + destruct (IH _ _ Hc) as [Hsub Hlen]. split; [by constructor|done].
Qed.

Lemma combinations_complete {A} (l c : list A) :
  c `sublist_of` l → c ∈ combinations l (length c).
Proof.
  induction 1 as [|x c l _ IH|x c l _ IH]; simpl.
  - by apply list_elem_of_singleton.
  - apply elem_of_app. left. apply list_elem_of_fmap. eauto.
  - destruct c as [|y c]; simpl in *.
    + by apply list_elem_of_singleton.
    + apply elem_of_app. by right.
Qed.

(** ** [find_different_budgets] on any numbers *)

Local Close Scope Qc_scope.

Section numeric.
Context {N : Type} `{!Number N}.

(** The walk of lines 86-92 appends to the row, and what it appends
    increases from [min_budget] on, passes the test against [max_budget]
    and comes from the sorted sums. *)
Lemma budget_row_walk (max_k max_budget : N) sums row min_budget :
  ∃ extra,
    Numeric.budget_row max_k max_budget sums row min_budget = row ++ extra
    ∧ Sorted below (min_budget :: extra)
    ∧ Forall (λ b, py_le b max_budget = true ∧ b ∈ sums) extra.
Proof.
  revert row min_budget.
  induction sums as [|s sums IH]; intros row min_budget.
  { exists []. rewrite app_nil_r. repeat constructor. }
  cbn [Numeric.budget_row].
  destruct (py_lt max_k _).
  { exists []. rewrite app_nil_r. repeat constructor. }
  destruct (py_lt min_budget s) eqn:Hlt;
    [destruct (py_le s max_budget) eqn:Hle|]; cbn [andb].
  - destruct (IH (row ++ [s]) s) as (extra & -> & Hsorted & Hall).
    exists (s :: extra). rewrite <- (assoc_L (++)). split; [done|]. split.
    + constructor; [done|]. by constructor.
    + constructor; [split; [done|by left]|].
      eapply Forall_impl; [exact Hall|].
      intros b [? ?]. split; [done|by right].
  - destruct (IH row min_budget) as (extra & -> & Hsorted & Hall).
    exists extra. repeat split; [done|].
    eapply Forall_impl; [exact Hall|]. intros b [? ?]. split; [done|by right].
  - destruct (IH row min_budget) as (extra & -> & Hsorted & Hall).
    exists extra. repeat split; [done|].
    eapply Forall_impl; [exact Hall|]. intros b [? ?]. split; [done|by right].
Qed.

(** The cap of line 87: the row never grows beyond it. *)
Lemma budget_row_within_cap (max_k max_budget : N) sums row min_budget :
  within_cap max_k row →
  within_cap max_k (Numeric.budget_row max_k max_budget sums row min_budget).
Proof.
  unfold within_cap. revert row min_budget.
  induction sums as [|s sums IH]; intros row min_budget Hrow; [done|].
  cbn [Numeric.budget_row].
  destruct (py_lt max_k (py_int (Z.of_nat (length row + 1)))) eqn:Hcap;
    [done|].
  destruct (py_lt min_budget s && py_le s max_budget); [|by apply IH].
  apply IH. by rewrite length_app.
Qed.

(** With a cap below 2 the walk stops before its first test. *)
Lemma budget_row_cap_below_two (max_k max_budget : N) sums min_budget :
  py_lt max_k (py_int 2) = true →
  Numeric.budget_row max_k max_budget sums [min_budget] min_budget
  = [min_budget].
Proof.
  intros Hcap. destruct sums as [|s sums]; [done|].
  cbn [Numeric.budget_row length]. change (Z.of_nat (0 + 1 + 1)) with 2%Z.
  change (Z.of_nat (1 + 1)) with 2%Z. by rewrite Hcap.
Qed.

Lemma elem_of_set_add (x y : N) (s : list N) :
  y ∈ Numeric.set_add x s → y = x ∨ y ∈ s.
Proof.
  unfold Numeric.set_add. destruct (existsb (py_eq x) s); [by right|].
  rewrite elem_of_app, list_elem_of_singleton. tauto.
Qed.

(** Lines 77-79: what the set gains are sums of combinations of 1 to
    [capacity] of the prices. *)
Lemma add_combination_sums_sound (prices : dict N) capacity sums x :
  x ∈ Numeric.add_combination_sums prices capacity sums →
  x ∈ sums ∨ bundle_sum (dict_values prices) capacity x.
Proof.
  unfold Numeric.add_combination_sums, range1.
  assert (∀ cs (sums : list N),
    x ∈ foldl (λ s combo, Numeric.set_add (py_sum combo) s) sums cs →
    x ∈ sums ∨ ∃ c, c ∈ cs ∧ py_sum c = x) as Hinner.
  { induction cs as [|c cs IH]; intros s0 Hx; [by left|].
    cbn [foldl] in Hx. destruct (IH _ Hx) as [Hs|(c' & Hc' & Hsum)].
    - apply elem_of_set_add in Hs as [->|Hs]; [|by left].
      right. exists c. split; [by left|done].
    - right. exists c'. split; [by right|done]. }
  assert (∀ rs (sums : list N),
    x ∈ foldl (λ sums r,
                 foldl (λ s combo, Numeric.set_add (py_sum combo) s) sums
                       (combinations (dict_values prices) r))
              sums rs →
    x ∈ sums ∨ ∃ r c, r ∈ rs ∧ c ∈ combinations (dict_values prices) r
                      ∧ py_sum c = x) as Houter.
  { induction rs as [|r rs IH]; intros s0 Hx; [by left|].
    cbn [foldl] in Hx.
    destruct (IH _ Hx) as [Hs|(r' & c & Hr' & Hc & Hsum)].
    - destruct (Hinner _ _ Hs) as [?|(c & Hc & Hsum)]; [by left|].
      right. exists r, c. split; [by left|done].
    - right. exists r', c. split; [by right|done]. }
  intros Hx. destruct (Houter _ _ Hx) as [?|(r & c & Hr & Hc & Hsum)];
    [by left|].
  right. exists c. apply combinations_sound in Hc as [Hsub Hlen].
  apply elem_of_seq in Hr. split; [done|]. split; [lia|done].
Qed.

Lemma numeric_student_pass_inv instance (initial_budgets : gmap key N)
    epsilon max_k prices sums db student sums' db' :
  Numeric.student_pass instance initial_budgets epsilon max_k prices
                       (sums, db) student = Ok (sums', db') →
  ∃ budget,
    initial_budgets !! student = Some budget
    ∧ sums' = Numeric.add_combination_sums prices
                (agent_capacity instance student) sums
    ∧ db' = <[student :=
               Numeric.budget_row max_k (py_add budget epsilon)
                 (py_sorted sums') [py_sub budget epsilon]
                 (py_sub budget epsilon)]> db.
Proof.
  unfold Numeric.student_pass, gmap_getitem.
  destruct (initial_budgets !! student) as [budget|]; [|done].
  rewrite bind_Ok. intros [= <- <-]. eauto.
Qed.

Lemma numeric_student_pass_Ok instance (initial_budgets : gmap key N)
    epsilon max_k prices sums db student budget :
  initial_budgets !! student = Some budget →
  Numeric.student_pass instance initial_budgets epsilon max_k prices
                       (sums, db) student
  = let sums' := Numeric.add_combination_sums prices
                   (agent_capacity instance student) sums in
    Ok (sums',
        <[student :=
           Numeric.budget_row max_k (py_add budget epsilon)
             (py_sorted sums') [py_sub budget epsilon]
             (py_sub budget epsilon)]> db).
Proof.
  intros Hbudget. unfold Numeric.student_pass, gmap_getitem.
  by rewrite Hbudget.
Qed.

(** Every row of the returned dict is the walk over the sorted set of
    sums as it stands after the pass of some student, started at the number
    computed for the student's [initial_budget - epsilon]; the set holds
    sums of bundles of agents of the instance only. *)
Lemma numeric_rows instance (initial_budgets : gmap key N) epsilon delta
    prices table student row :
  Numeric.find_different_budgets instance initial_budgets epsilon delta prices
  = Ok table →
  table !! student = Some row →
  ∃ max_k budget sums,
    Numeric.max_k epsilon delta = Ok max_k
    ∧ initial_budgets !! student = Some budget
    ∧ row = Numeric.budget_row max_k (py_add budget epsilon)
              (py_sorted sums) [py_sub budget epsilon]
              (py_sub budget epsilon)
    ∧ ∀ x, x ∈ sums →
        ∃ a, a ∈ agents instance
             ∧ bundle_sum (dict_values prices) (agent_capacity instance a) x.
Proof.
  unfold Numeric.find_different_budgets. intros H Hrow.
  apply bind_Ok_inv in H as (max_k & Hk & H).
  apply bind_Ok_inv in H as ([sums table1] & Hfold & [= <-]).
  exists max_k. simpl in Hrow.
  set (sound := λ sums : list N, ∀ x, x ∈ sums →
    ∃ a, a ∈ agents instance
         ∧ bundle_sum (dict_values prices) (agent_capacity instance a) x).
  assert (∀ l st st',
    (∀ a, a ∈ l → a ∈ agents instance) →
    foldM (Numeric.student_pass instance initial_budgets epsilon max_k prices)
          st l = Ok st' →
    sound st.1 →
    (∀ student row, st.2 !! student = Some row →
       ∃ budget sums, initial_budgets !! student = Some budget
         ∧ row = Numeric.budget_row max_k (py_add budget epsilon)
                   (py_sorted sums) [py_sub budget epsilon]
                   (py_sub budget epsilon)
         ∧ sound sums) →
    ∀ student row, st'.2 !! student = Some row →
       ∃ budget sums, initial_budgets !! student = Some budget
         ∧ row = Numeric.budget_row max_k (py_add budget epsilon)
                   (py_sorted sums) [py_sub budget epsilon]
                   (py_sub budget epsilon)
         ∧ sound sums) as Hloop.
  { induction l as [|a l IH]; intros [s0 d0] st' Hl Hf Hs0 Hd0.
    - by injection Hf as <-.
    - rewrite foldM_cons in Hf.
      apply bind_Ok_inv in Hf as ([s1 d1] & Hpass & Hf).
      apply numeric_student_pass_inv in Hpass as (budget & Hb & Hs1 & ->).
      assert (sound s1) as Hsound1.
      { intros x Hx. rewrite Hs1 in Hx.
        apply add_combination_sums_sound in Hx as [Hx|Hx]; [by apply Hs0|].
        exists a. split; [apply Hl; by left|done]. }
      apply (IH _ _ (λ a' Ha', Hl a' (list_elem_of_further _ _ _ Ha')) Hf);
        [done|].
      simpl. intros k row' Hrow'. destruct (decide (a = k)) as [->|Hne].
      + rewrite lookup_insert_eq in Hrow'. injection Hrow' as <-. eauto 10.
      + rewrite lookup_insert_ne in Hrow' by done. by apply Hd0. }
  destruct (Hloop (agents instance) ([], ∅) (sums, table1) (λ _ H, H) Hfold)
    with (student := student) (row := row)
    as (budget & sums' & Hb & -> & Hsound); [| |done|eauto 10].
  - intros x Hx. by apply elem_of_nil in Hx.
  - intros k row' Hrow'. simpl in Hrow'. by rewrite lookup_empty in Hrow'.
Qed.

End numeric.

(** C3, as amended.  On any numbers, every row that
    [find_different_budgets] returns belongs to an agent with an initial
    budget; it starts at the number that the code computes for
    [initial_budget - epsilon], each entry is below the next one under [<],
    and each entry after the first passes [<=] against the number that the
    code computes for [initial_budget + epsilon]. *)
Theorem find_different_budgets_window {N} `{!Number N} instance
    (initial_budgets : gmap key N) epsilon delta prices table student row :
  Numeric.find_different_budgets instance initial_budgets epsilon delta prices
  = Ok table →
  table !! student = Some row →
  ∃ budget,
    initial_budgets !! student = Some budget ∧ in_window budget epsilon row.
Proof.
  intros Htable Hrow.
  destruct (numeric_rows _ _ _ _ _ _ _ _ Htable Hrow)
    as (max_k & budget & sums & _ & Hbudget & -> & _).
  exists budget. split; [done|].
  destruct (budget_row_walk max_k (py_add budget epsilon) (py_sorted sums)
              [py_sub budget epsilon] (py_sub budget epsilon))
    as (extra & -> & Hsorted & Hall).
  split; [done|]. split; [done|].
  eapply Forall_impl; [exact Hall|]. by intros b [? _].
Qed.

(** A budget of [10.0] with [epsilon = 1 - 2 ** -53], [delta = 0.25] and
    prices of [10.0] and [11.0]: the row is [[9.0, 10.0, 11.0]]. *)
Lemma find_different_budgets_window_witness :
  ∃ budget,
    carol_budgets !! KStr "Carol" = Some budget
    ∧ in_window budget almost_one [dyadic 9 0; dyadic 10 0; dyadic 11 0].
Proof.
  apply (find_different_budgets_window carol carol_budgets almost_one
           (dyadic 1 (-2)) (c1_c2_floats (dyadic 10 0) (dyadic 11 0))
           {[ KStr "Carol" := [dyadic 9 0; dyadic 10 0; dyadic 11 0] ]}
           (KStr "Carol")).
  - by_eval.
  - by_eval.
Defined.

(** C3 at a counterexample on [float]s, with [epsilon >= 0] and
    [delta > 0].  The row of the witness above is [[9.0, 10.0, 11.0]] for a
    budget of 10 and [epsilon = 1 - 2 ** -53]: its first entry is 9 and not
    [10 - epsilon], and its last entry 11 is above [10 + epsilon], because
    both bounds are rounded. *)
Lemma window_missed_by_rounding :
  ∃ table first last,
    Numeric.find_different_budgets carol carol_budgets almost_one
      (dyadic 1 (-2)) (c1_c2_floats (dyadic 10 0) (dyadic 11 0)) = Ok table
    ∧ table !! KStr "Carol" = Some [first; dyadic 10 0; last]
    ∧ SFleb (dyadic 0 0) almost_one = true
    ∧ SFltb (dyadic 0 0) (dyadic 1 (-2)) = true
    ∧ ∃ budget epsilon x y : Qc,
        float_value (dyadic 10 0) = Some budget
        ∧ float_value almost_one = Some epsilon
        ∧ float_value first = Some x
        ∧ float_value last = Some y
        ∧ x ≠ (budget - epsilon)%Qc
        ∧ (budget + epsilon < y)%Qc.
Proof.
  exists {[ KStr "Carol" := [dyadic 9 0; dyadic 10 0; dyadic 11 0] ]},
         (dyadic 9 0), (dyadic 11 0).
  split; [by_eval|]. split; [by_eval|]. split; [by_eval|]. split; [by_eval|].
  exists (Qc_of_Z 10), (ratio (2 ^ 53 - 1) (2 ^ 53)), (Qc_of_Z 9),
         (Qc_of_Z 11).
  repeat split; by_eval.
Qed.

(** C4, as amended.  On any numbers, [len(row) > max_k] is false of every
    row that [find_different_budgets] returns, for the number [max_k] that
    line 66 computes, provided that [1 > max_k] is false. *)
Theorem find_different_budgets_within_cap {N} `{!Number N} instance
    (initial_budgets : gmap key N) epsilon delta prices table student row :
  Numeric.find_different_budgets instance initial_budgets epsilon delta prices
  = Ok table →
  table !! student = Some row →
  ∃ max_k,
    Numeric.max_k epsilon delta = Ok max_k
    ∧ (py_lt max_k (py_int 1) = false → within_cap max_k row).
Proof.
  intros Htable Hrow.
  destruct (numeric_rows _ _ _ _ _ _ _ _ Htable Hrow)
    as (max_k & budget & sums & Hk & _ & -> & _).
  exists max_k. split; [done|]. intros Hone.
  by apply budget_row_within_cap.
Qed.

(** A budget of [10.0] with [epsilon = 1 - 2 ** -53], [delta = 1.0] and
    prices of [10.0] and [10.5]: [max_k] is [3.0] and the row is
    [[9.0, 10.0, 10.5]]. *)
Lemma find_different_budgets_within_cap_witness :
  ∃ max_k,
    Numeric.max_k almost_one (dyadic 1 0) = Ok max_k
    ∧ (py_lt max_k (py_int 1) = false →
       within_cap max_k [dyadic 9 0; dyadic 10 0; dyadic 21 (-1)]).
Proof.
  apply (find_different_budgets_within_cap carol carol_budgets almost_one
           (dyadic 1 0) (c1_c2_floats (dyadic 10 0) (dyadic 21 (-1)))
           {[ KStr "Carol" := [dyadic 9 0; dyadic 10 0; dyadic 21 (-1)] ]}
           (KStr "Carol")).
  - by_eval.
  - by_eval.
Defined.

(** C4 at a counterexample on [float]s, with [epsilon >= 0] and
    [delta > 0].  The row of the witness above has 3 entries, and
    [2 * epsilon / delta + 1] is [3 - 2 ** -52] for
    [epsilon = 1 - 2 ** -53] and [delta = 1]: line 66 rounds it to
    [3.0]. *)
Lemma cap_exceeded_by_rounding :
  ∃ table row,
    Numeric.find_different_budgets carol carol_budgets almost_one
      (dyadic 1 0) (c1_c2_floats (dyadic 10 0) (dyadic 21 (-1))) = Ok table
    ∧ table !! KStr "Carol" = Some row
    ∧ ∃ epsilon delta : Qc,
        float_value almost_one = Some epsilon
        ∧ float_value (dyadic 1 0) = Some delta
        ∧ (0 ≤ epsilon)%Qc
        ∧ (0 < delta)%Qc
        ∧ (2 * epsilon / delta + 1 < Qc_of_Z (Z.of_nat (length row)))%Qc.
Proof.
  exists {[ KStr "Carol" := [dyadic 9 0; dyadic 10 0; dyadic 21 (-1)] ]},
         [dyadic 9 0; dyadic 10 0; dyadic 21 (-1)].
  split; [by_eval|]. split; [by_eval|].
  exists (ratio (2 ^ 53 - 1) (2 ^ 53)), (Qc_of_Z 1).
  repeat split; by_eval.
Qed.

(** X10. On any numbers whose [sorted] hands back the elements it is
    given, every candidate budget after the first one of a row passes [<=]
    against the number computed for [initial_budget + epsilon] and is the
    [sum] of a bundle of between 1 course and the capacity of some agent of
    the instance, who need not be the agent of the row. *)
Theorem find_different_budgets_candidates {N} `{!Number N}
    `{!SortedPermutes N} instance (initial_budgets : gmap key N) epsilon delta
    prices table student row :
  Numeric.find_different_budgets instance initial_budgets epsilon delta prices
  = Ok table →
  table !! student = Some row →
  ∃ budget,
    initial_budgets !! student = Some budget
    ∧ ∀ b, b ∈ tail row →
        py_le b (py_add budget epsilon) = true
        ∧ ∃ a, a ∈ agents instance
               ∧ bundle_sum (dict_values prices) (agent_capacity instance a) b.
Proof.
  intros Htable Hrow.
  destruct (numeric_rows _ _ _ _ _ _ _ _ Htable Hrow)
    as (max_k & budget & sums & _ & Hbudget & -> & Hsound).
  exists budget. split; [done|]. intros b Hb.
  destruct (budget_row_walk max_k (py_add budget epsilon) (py_sorted sums)
              [py_sub budget epsilon] (py_sub budget epsilon))
    as (extra & Hextra & _ & Hall).
  rewrite Hextra in Hb. simpl in Hb. rewrite Forall_forall in Hall.
  destruct (Hall b Hb) as [Hle Hin]. split; [done|].
  apply Hsound. by rewrite <- (py_sorted_Permutation sums).
Qed.

(** The row [[9.0, 10.0, 11.0]] of Carol, who takes one course. *)
Lemma find_different_budgets_candidates_witness :
  ∃ budget,
    carol_budgets !! KStr "Carol" = Some budget
    ∧ ∀ b, b ∈ tail [dyadic 9 0; dyadic 10 0; dyadic 11 0] →
        py_le b (py_add budget almost_one) = true
        ∧ ∃ a, a ∈ agents carol
               ∧ bundle_sum (dict_values
                               (c1_c2_floats (dyadic 10 0) (dyadic 11 0)))
                            (agent_capacity carol a) b.
Proof.
  apply (find_different_budgets_candidates carol carol_budgets almost_one
           (dyadic 1 (-2)) (c1_c2_floats (dyadic 10 0) (dyadic 11 0))
           {[ KStr "Carol" := [dyadic 9 0; dyadic 10 0; dyadic 11 0] ]}
           (KStr "Carol")).
  - by_eval.
  - by_eval.
Defined.

(** X12. On any numbers, when [2 > max_k] is true of the number [max_k]
    that line 66 computes, the cap stops the walk at once: every row is the
    single entry computed for [initial_budget - epsilon], whatever the
    prices. *)
Theorem find_different_budgets_cap_below_two {N} `{!Number N} instance
    (initial_budgets : gmap key N) epsilon delta prices max_k table student
    row :
  Numeric.max_k epsilon delta = Ok max_k →
  py_lt max_k (py_int 2) = true →
  Numeric.find_different_budgets instance initial_budgets epsilon delta prices
  = Ok table →
  table !! student = Some row →
  ∃ budget,
    initial_budgets !! student = Some budget
    ∧ row = [py_sub budget epsilon].
Proof.
  intros Hk Hcap Htable Hrow.
  destruct (numeric_rows _ _ _ _ _ _ _ _ Htable Hrow)
    as (max_k' & budget & sums & Hk' & Hbudget & -> & _).
  rewrite Hk in Hk'. injection Hk' as <-.
  exists budget. split; [done|]. by apply budget_row_cap_below_two.
Qed.

(** Carol with [epsilon = 0.0]: [max_k] is [1.0]. *)
Lemma find_different_budgets_cap_below_two_witness :
  ∃ budget,
    carol_budgets !! KStr "Carol" = Some budget
    ∧ [dyadic 10 0] = [py_sub budget (dyadic 0 0)].
Proof.
  apply (find_different_budgets_cap_below_two carol carol_budgets (dyadic 0 0)
           (dyadic 1 0) (c1_c2_floats (dyadic 10 0) (dyadic 11 0))
           (dyadic 1 0) {[ KStr "Carol" := [dyadic 10 0] ]} (KStr "Carol")).
  - by_eval.
  - by_eval.
  - by_eval.
  - by_eval.
Defined.

(** The test of X12 is on the number that line 66 computes: with
    [epsilon = 0.5 - 2 ** -54] and [delta = 1.0], [2 * epsilon / delta] is
    below 1, [max_k] is rounded to [2.0], and the row gets a second
    entry. *)
Example find_different_budgets_cap_rounded_to_two :
  py_lt (py_mul (py_int 2) (dyadic (2 ^ 53 - 1) (-54))) (py_int 1) = true
  ∧ Numeric.max_k (dyadic (2 ^ 53 - 1) (-54)) (dyadic 1 0) = Ok (dyadic 2 0)
  ∧ Numeric.find_different_budgets carol carol_budgets
      (dyadic (2 ^ 53 - 1) (-54)) (dyadic 1 0)
      (c1_c2_floats (dyadic 10 0) (dyadic 11 0))
    = Ok {[ KStr "Carol" := [dyadic 19 (-1); dyadic 10 0] ]}.
Proof. repeat split; by_eval. Qed.

(** X13. On any numbers whose [sorted] hands back the elements it is
    given, when no [sum] of a bundle of any agent passes the test of line 89
    against the numbers computed for [initial_budget - epsilon] and
    [initial_budget + epsilon], the row is the single entry computed for
    [initial_budget - epsilon]. *)
Theorem find_different_budgets_no_sum_in_range {N} `{!Number N}
    `{!SortedPermutes N} instance (initial_budgets : gmap key N) epsilon delta
    prices table student row budget :
  Numeric.find_different_budgets instance initial_budgets epsilon delta prices
  = Ok table →
  table !! student = Some row →
  initial_budgets !! student = Some budget →
  (∀ a b, a ∈ agents instance →
          bundle_sum (dict_values prices) (agent_capacity instance a) b →
          py_lt (py_sub budget epsilon) b
          && py_le b (py_add budget epsilon) = false) →
  row = [py_sub budget epsilon].
Proof.
  intros Htable Hrow Hbudget Hnone.
  destruct (numeric_rows _ _ _ _ _ _ _ _ Htable Hrow)
    as (max_k & budget' & sums & _ & Hbudget' & -> & Hsound).
  rewrite Hbudget in Hbudget'. injection Hbudget' as <-.
  destruct (budget_row_walk max_k (py_add budget epsilon) (py_sorted sums)
              [py_sub budget epsilon] (py_sub budget epsilon))
    as (extra & -> & Hsorted & Hall).
  destruct extra as [|b extra]; [done|].
  apply Forall_cons in Hall as [[Hle Hin] _].
  apply Sorted_inv in Hsorted as [_ Hhd]. apply HdRel_inv in Hhd.
  rewrite (py_sorted_Permutation sums) in Hin.
  destruct (Hsound b Hin) as (a & Ha & Hsum).
  specialize (Hnone a b Ha Hsum). unfold below in Hhd.
  by rewrite Hhd, Hle in Hnone.
Qed.

(** Carol with prices of [20.0] and [30.0]: neither is within reach of a
    budget of [10.0]. *)
Lemma find_different_budgets_no_sum_in_range_witness :
  [dyadic 9 0] = [py_sub (dyadic 10 0) almost_one].
Proof.
  apply (find_different_budgets_no_sum_in_range carol carol_budgets almost_one
           (dyadic 1 0) (c1_c2_floats (dyadic 20 0) (dyadic 30 0))
           {[ KStr "Carol" := [dyadic 9 0] ]} (KStr "Carol")).
  - by_eval.
  - by_eval.
  - by_eval.
  - intros a b Ha (combo & Hsub & Hlen & <-).
    assert (agent_capacity carol a = 1%Z) as Hcap.
    { repeat (apply elem_of_cons in Ha as [->|Ha]; [done|]).
      by apply elem_of_nil in Ha. }
    rewrite Hcap in Hlen. apply combinations_complete in Hsub.
    destruct (length combo) as [|[|n]]; [lia| |lia].
    vm_compute in Hsub.
    repeat (apply elem_of_cons in Hsub as [->|Hsub]; [by_eval|]).
    by apply elem_of_nil in Hsub.
Defined.

(** X20. On any numbers, when line 66 raises nothing and every agent has an
    initial budget, [find_different_budgets] returns, with a row for every
    agent. *)
Theorem find_different_budgets_total {N} `{!Number N} instance
    (initial_budgets : gmap key N) epsilon delta prices max_k :
  Numeric.max_k epsilon delta = Ok max_k →
  (∀ student, student ∈ agents instance →
     is_Some (initial_budgets !! student)) →
  ∃ table,
    Numeric.find_different_budgets instance initial_budgets epsilon delta
                                   prices = Ok table
    ∧ ∀ student, student ∈ agents instance → is_Some (table !! student).
Proof.
  intros Hk Hbudgets. unfold Numeric.find_different_budgets.
  rewrite Hk, bind_Ok.
  assert (∀ l st, (∀ s, s ∈ l → is_Some (initial_budgets !! s)) →
    ∃ st', foldM (Numeric.student_pass instance initial_budgets epsilon
                    max_k prices) st l = Ok st'
           ∧ ∀ s, s ∈ l ∨ is_Some (st.2 !! s) → is_Some (st'.2 !! s))
    as Hloop.
  { induction l as [|k l IH]; intros [sums table] Hl.
    - eexists. split; [done|]. intros s [Hs|Hs]; [|done].
      by apply elem_of_nil in Hs.
    - destruct (Hl k) as [budget Hbudget]; [by left|].
      rewrite foldM_cons, (numeric_student_pass_Ok _ _ _ _ _ _ _ _ budget)
        by done.
      cbv zeta. rewrite bind_Ok.
      edestruct IH as (st' & -> & Hdom).
      { intros s Hs. apply Hl. by right. }
      exists st'. split; [done|]. intros s Hs. apply Hdom. simpl.
      destruct (decide (k = s)) as [->|Hne].
      + right. by rewrite lookup_insert_eq.
      + rewrite lookup_insert_ne by done.
        destruct Hs as [Hs|Hs]; [|by right].
        apply elem_of_cons in Hs as [->|Hs]; [done|by left]. }
  destruct (Hloop (agents instance) ([], ∅) Hbudgets) as (st' & -> & Hdom).
  exists st'.2. split; [done|]. intros s Hs. apply Hdom. by left.
Qed.

(** Carol, with [epsilon = 1 - 2 ** -53] and [delta = 1.0]. *)
Lemma find_different_budgets_total_witness :
  ∃ table,
    Numeric.find_different_budgets carol carol_budgets almost_one (dyadic 1 0)
      (c1_c2_floats (dyadic 10 0) (dyadic 21 (-1))) = Ok table
    ∧ ∀ student, student ∈ agents carol → is_Some (table !! student).
Proof.
  apply (find_different_budgets_total carol carol_budgets almost_one
           (dyadic 1 0) (c1_c2_floats (dyadic 10 0) (dyadic 21 (-1)))
           (dyadic 3 0)).
  - by_eval.
  - intros student Hs.
    repeat (apply elem_of_cons in Hs as [->|Hs]; [by_eval|]).
    by apply elem_of_nil in Hs.
Defined.

(** ** [find_different_budgets] on any numbers: the exact rationals *)

Local Open Scope Qc_scope.

Lemma Qcminus_le_plus (x e : Qc) : 0 ≤ e → x - e ≤ x + e.
Proof.
  intros He. unfold Qcminus. rewrite !(Qcplus_comm x).
  apply Qcplus_le_compat; [|apply Qcle_refl].
  transitivity 0; [|done].
  apply Qcle_minus_iff. by rewrite Qcopp_involutive, Qcplus_0_l.
Qed.

Lemma Sorted_below_Qclt (l : list Qc) :
  Sorted below l → StronglySorted Qclt l.
Proof.
  intros Hsorted. apply Sorted_StronglySorted; [intros x y z; apply Qclt_trans|].
  induction Hsorted as [|x l _ IH Hhd]; constructor; [done|].
  destruct Hhd as [|y l Hxy]; constructor.
  by apply bool_decide_eq_true in Hxy.
Qed.

(** X11. On exact rationals, as with [fractions.Fraction], and with
    [epsilon >= 0], every row that [find_different_budgets] returns
    increases strictly, starts at [initial_budget - epsilon] and stays at or
    below [initial_budget + epsilon]. *)
Theorem find_different_budgets_exact_window instance
    (initial_budgets : gmap key Qc) epsilon delta prices table student row :
  0 ≤ epsilon →
  Numeric.find_different_budgets instance initial_budgets epsilon delta prices
  = Ok table →
  table !! student = Some row →
  ∃ budget,
    initial_budgets !! student = Some budget
    ∧ StronglySorted Qclt row
    ∧ head row = Some (budget - epsilon)
    ∧ Forall (λ b, b ≤ budget + epsilon) row.
Proof.
  intros Hepsilon Htable Hrow.
  destruct (numeric_rows _ _ _ _ _ _ _ _ Htable Hrow)
    as (max_k & budget & sums & _ & Hbudget & -> & _).
  exists budget. split; [done|].
  destruct (budget_row_walk max_k (py_add budget epsilon) (py_sorted sums)
              [py_sub budget epsilon] (py_sub budget epsilon))
    as (extra & -> & Hsorted & Hall).
  split; [by apply Sorted_below_Qclt|]. split; [done|].
  constructor; [by apply Qcminus_le_plus|].
  eapply Forall_impl; [exact Hall|].
  intros b [Hle _]. by apply bool_decide_eq_true in Hle.
Qed.

(** The first doctest, on [Fraction]s. *)
Lemma find_different_budgets_exact_window_witness :
  ∃ budget,
    alice_bob_budgets !! KStr "Bob" = Some budget
    ∧ StronglySorted Qclt (Qc_of_Z <$> [2; 3; 4; 5]%Z)
    ∧ head (Qc_of_Z <$> [2; 3; 4; 5]%Z) = Some (budget - Qc_of_Z 2)
    ∧ Forall (λ b, b ≤ budget + Qc_of_Z 2) (Qc_of_Z <$> [2; 3; 4; 5]%Z).
Proof.
  apply (find_different_budgets_exact_window alice_bob alice_bob_budgets
           (Qc_of_Z 2) (ratio 1 2)
           (numbers [("c1", 1); ("c2", 2); ("c3", 3)]%Z)
           (list_to_map [(KStr "Alice", Qc_of_Z <$> [3; 4; 5]%Z);
                         (KStr "Bob", Qc_of_Z <$> [2; 3; 4; 5]%Z)])
           (KStr "Bob")).
  - by_eval.
  - by_eval.
  - by_eval.
Defined.

(** X6. On exact rationals with [epsilon >= 0] and [delta > 0], every row
    that [find_different_budgets] returns has at most
    [2 * epsilon / delta + 1] entries. *)
Theorem find_different_budgets_exact_cap instance
    (initial_budgets : gmap key Qc) epsilon delta prices table student row :
  0 ≤ epsilon →
  0 < delta →
  Numeric.find_different_budgets instance initial_budgets epsilon delta prices
  = Ok table →
  table !! student = Some row →
  Qc_of_Z (Z.of_nat (length row)) ≤ 2 * epsilon / delta + 1.
Proof.
  intros Hepsilon Hdelta Htable Hrow.
  destruct (numeric_rows _ _ _ _ _ _ _ _ Htable Hrow)
    as (max_k & budget & sums & Hk & _ & -> & _).
  unfold Numeric.max_k in Hk. cbn [py_truediv py_mul py_int py_add Fraction]
    in Hk.
  unfold py_div in Hk. rewrite decide_False in Hk
    by (intros ->; by apply Qclt_not_eq in Hdelta).
  injection Hk as <-.
  assert (within_cap (2 * epsilon / delta + 1)
            (Numeric.budget_row (2 * epsilon / delta + 1) (budget + epsilon)
               (py_sorted sums) [budget - epsilon] (budget - epsilon)))
    as Hcap.
  { apply budget_row_within_cap. unfold within_cap.
    apply bool_decide_eq_false, Qcle_not_lt.
    assert (0 ≤ 2 * epsilon / delta) as Hq.
    { apply Qcmult_nonneg_nonneg; [by apply Qcmult_nonneg_nonneg|].
      by apply Qclt_le_weak, Qcinv_pos. }
    apply (Qcplus_le_mono_r _ _ 1) in Hq.
    by rewrite Qcplus_0_l in Hq. }
  unfold within_cap in Hcap. apply bool_decide_eq_false in Hcap.
  by apply Qcnot_lt_le.
Qed.

(** The first doctest, on [Fraction]s: four entries, and [max_k = 9]. *)
Lemma find_different_budgets_exact_cap_witness :
  Qc_of_Z (Z.of_nat (length (Qc_of_Z <$> [2; 3; 4; 5]%Z)))
  ≤ 2 * Qc_of_Z 2 / ratio 1 2 + 1.
Proof.
  apply (find_different_budgets_exact_cap alice_bob alice_bob_budgets
           (Qc_of_Z 2) (ratio 1 2)
           (numbers [("c1", 1); ("c2", 2); ("c3", 3)]%Z)
           (list_to_map [(KStr "Alice", Qc_of_Z <$> [3; 4; 5]%Z);
                         (KStr "Bob", Qc_of_Z <$> [2; 3; 4; 5]%Z)])
           (KStr "Bob")).
  - by_eval.
  - by_eval.
  - by_eval.
  - by_eval.
Defined.

(** ** The two embeddings of [find_different_budgets] *)

(** [sorted] of a set does not depend on the order in which the set hands
    out its elements. *)
Lemma sorted_order_independent (l1 l2 : list Qc) :
  l1 ≡ₚ l2 → merge_sort Qcle l1 = merge_sort Qcle l2.
Proof.
  intros Hperm. apply (StronglySorted_unique Qcle).
  - apply StronglySorted_merge_sort; apply _.
  - apply StronglySorted_merge_sort; apply _.
  - by rewrite !merge_sort_Permutation.
Qed.

Lemma represents_set_add (x : Qc) l s :
  represents l s → represents (Numeric.set_add x l) ({[ x ]} ∪ s).
Proof.
  intros [Hnodup ->]. unfold Numeric.set_add.
  destruct (existsb (py_eq x) l) eqn:Hex.
  - split; [done|]. apply existsb_exists in Hex as (y & Hy & Hxy).
    apply bool_decide_eq_true in Hxy as <-.
    apply list_elem_of_In in Hy.
    apply set_eq. intros z. rewrite elem_of_union, elem_of_singleton,
      elem_of_list_to_set. split; [intros [->|?]; done | by right].
  - split.
    + apply NoDup_app. split; [done|]. split; [|apply NoDup_singleton].
      intros y Hy ->%list_elem_of_singleton.
      apply not_true_iff_false in Hex. apply Hex.
      apply existsb_exists. exists x. split; [by apply list_elem_of_In|].
      by apply bool_decide_eq_true.
    + rewrite list_to_set_app_L. simpl. rewrite (right_id_L ∅ (∪)).
      apply (comm_L (∪)).
Qed.

Lemma represents_add_combination_sums d capacity l s :
  represents l s →
  ∃ s', add_combination_sums (PriceDict d) capacity s = Ok s'
        ∧ represents (Numeric.add_combination_sums d capacity l) s'.
Proof.
  unfold add_combination_sums, Numeric.add_combination_sums.
  generalize (range1 capacity) as rs. intros rs. revert l s.
  induction rs as [|r rs IH]; intros l s Hrep; [by exists s|].
  rewrite foldM_cons. cbn [foldl price_values]. rewrite bind_Ok.
  cbn [mret result_ret]. rewrite bind_Ok. apply IH.
  generalize (combinations (dict_values d) r) as cs. intros cs.
  revert l s Hrep. induction cs as [|c cs IHc]; intros l s Hrep; [done|].
  cbn [foldl]. apply IHc. by apply represents_set_add.
Qed.

Lemma represents_sorted l s :
  represents l s → sorted s = py_sorted l.
Proof.
  intros [Hnodup ->]. unfold sorted. cbn [py_sorted Fraction].
  apply sorted_order_independent. by apply elements_list_to_set.
Qed.

Lemma budget_row_Fraction (max_k max_budget : Qc) sums row min_budget :
  budget_row max_k max_budget sums row min_budget
  = Numeric.budget_row max_k max_budget sums row min_budget.
Proof.
  revert row min_budget.
  induction sums as [|s sums IH]; intros row min_budget; [done|].
  cbn [budget_row Numeric.budget_row py_lt py_le py_int Fraction].
  case_decide as Hcap.
  { by rewrite bool_decide_eq_true_2. }
  rewrite (bool_decide_eq_false_2 _ Hcap).
  case_decide as Hs.
  - destruct Hs as [Hlt Hle].
    rewrite (bool_decide_eq_true_2 _ Hlt), (bool_decide_eq_true_2 _ Hle).
    apply IH.
  - destruct (bool_decide (min_budget < s)%Qc) eqn:Hlt;
      [destruct (bool_decide (s ≤ max_budget)%Qc) eqn:Hle|]; cbn [andb];
      [|apply IH..].
    apply bool_decide_eq_true in Hlt, Hle. by destruct Hs.
Qed.

Lemma student_pass_Fraction instance initial_budgets epsilon max_k d l s db
    student :
  represents l s →
  match outcome (student_pass instance initial_budgets epsilon max_k
                              (PriceDict d) (s, db) student),
        Numeric.student_pass instance initial_budgets epsilon max_k d (l, db)
                             student with
  | Ok (s', db'), Ok (l', db'') => represents l' s' ∧ db' = db''
  | Raise e, Raise e' => e = e'
  | _, _ => False
  end.
Proof.
  intros Hrep.
  destruct (represents_add_combination_sums d
              (agent_capacity instance student) l s Hrep)
    as (s' & Hs' & Hrep').
  unfold Numeric.student_pass, gmap_getitem.
  destruct (initial_budgets !! student) as [budget|] eqn:Hbudget.
  - rewrite (student_pass_Ok _ _ _ _ _ _ _ _ s' budget) by done.
    rewrite bind_Ok. cbn [mret result_ret]. split; [done|].
    rewrite budget_row_Fraction. by rewrite (represents_sorted _ _ Hrep').
  - rewrite (student_pass_Raise _ _ _ _ _ _ _ KeyError); [done|].
    simpl. rewrite Hs', bind_Ok. unfold gmap_getitem. by rewrite Hbudget.
Qed.

(** X5. On prices in a dict, the embedding on exact rationals and the
    embedding on any numbers, taken at the exact rationals, end alike:
    with the same dict of rows or with the same exception. *)
Theorem find_different_budgets_Fraction instance initial_budgets epsilon
    delta d :
  outcome (find_different_budgets instance initial_budgets epsilon delta
                                  (PriceDict d))
  = Numeric.find_different_budgets instance initial_budgets epsilon delta d.
Proof.
  unfold find_different_budgets, Numeric.find_different_budgets,
    Numeric.max_k.
  rewrite outcome_bind_cases.
  cbn [lift outcome py_truediv py_mul py_int py_add Fraction].
  rewrite Z2Qc_inj_2, Z2Qc_inj_1.
  destruct (py_div (2 * epsilon) delta) as [q|e]; [|done].
  cbn [mbind result_bind mret result_ret].
  rewrite outcome_bind_cases.
  assert (∀ students l s db, represents l s →
    match outcome (foldM (student_pass instance initial_budgets epsilon
                            (q + 1)%Qc (PriceDict d)) (s, db) students),
          foldM (Numeric.student_pass instance initial_budgets epsilon
                   (q + 1)%Qc d) (l, db) students with
    | Ok st, Ok st' => st.2 = st'.2
    | Raise e, Raise e' => e = e'
    | _, _ => False
    end) as Hloop.
  { induction students as [|a students IH]; intros l s db Hrep; [done|].
    rewrite !foldM_cons, outcome_bind_cases.
    pose proof (student_pass_Fraction instance initial_budgets epsilon
                  (q + 1)%Qc d l s db a Hrep) as Hpass.
    destruct (outcome (student_pass _ _ _ _ _ _ a)) as [[s1 db1]|e1];
      destruct (Numeric.student_pass _ _ _ _ _ _ a) as [[l1 db2]|e2];
      try done.
    destruct Hpass as [Hrep1 <-]. rewrite bind_Ok. by apply IH. }
  specialize (Hloop (agents instance) [] ∅ ∅).
  destruct (outcome (foldM _ _ _)) as [st|e];
    destruct (foldM (Numeric.student_pass _ _ _ _ _) _ _) as [st'|e'].
  - rewrite bind_Ok. simpl. f_equal. apply Hloop. split; [constructor|done].
  - destruct Hloop. split; [constructor|done].
  - destruct Hloop. split; [constructor|done].
  - simpl. f_equal. apply Hloop. split; [constructor|done].
Qed.

(** ** [student_budget_per_bundle] *)

(** An affordable combination makes [consider] read [utility_combination],
    which no statement of the function assigns. *)
Lemma consider_affordable instance prices student_name large_num budget st
    combination chosen :
  utility_combination st = None →
  mapM (price_getitem prices) combination = Ok chosen →
  sum_list chosen ≤ budget →
  consider instance prices student_name large_num budget st combination
  = Raise UnboundLocalError.
Proof.
  intros Hunbound Hchosen Hle. unfold consider.
  rewrite Hchosen, bind_Ok. rewrite decide_True by done.
  rewrite Hunbound. by case_decide.
Qed.

(** C2 at a failing input: the rows of candidate budgets and the prices of
    the first doctest of [find_different_budgets].  Alice can afford course 0
    with a budget of 3, and the search stops with [UnboundLocalError]
    instead of emitting a bundle. *)
Theorem student_budget_per_bundle_unbound :
  student_budget_per_bundle
    (BudgetList [Qc_of_Z <$> [3; 4; 5]%Z; Qc_of_Z <$> [2; 3; 4; 5]%Z])
    (PriceList (Qc_of_Z <$> [1; 2; 3]%Z)) alice_bob
  = Traced [BundleMaximization (KStr "Alice")] (Raise UnboundLocalError).
Proof. vm_compute. reflexivity. Qed.

(** Where no budget buys any course the emitted vectors are all zero. *)
Example student_budget_per_bundle_nothing_affordable :
  outcome (student_budget_per_bundle
             (BudgetList [[ratio 1 2; ratio 3 4]; [ratio 1 3]])
             (PriceList (Qc_of_Z <$> [1; 2; 3]%Z)) alice_bob)
  = Ok [[[0; 0; 0]; [0; 0; 0]]; [[0; 0; 0]]]%Z.
Proof. vm_compute. reflexivity. Qed.

(** ** [find_budget_perturbation] and [find_ACEEI_with_EFTB] *)

Lemma perturbation_step_outcome optimize_model initial_budgets epsilon delta
    prices instance t :
  let call := find_budget_perturbation optimize_model initial_budgets epsilon
                                       delta prices instance t in
  let step := perturbation_step optimize_model initial_budgets epsilon delta
                                prices instance t in
  (outcome call = Ok PNone ∧ outcome step = Raise TypeError)
  ∨ (∃ e, outcome call = Raise e ∧ outcome step = Raise e).
Proof.
  intros call step.
  assert (outcome step
          = match outcome call with
            | Ok r => unpack4 r
            | Raise e => Raise e
            end) as ->.
  { unfold step, perturbation_step. fold call. clearbody call.
    rewrite !outcome_bind_cases. simpl. by destruct (outcome call). }
  assert (outcome call = Ok PNone ∨ ∃ e, outcome call = Raise e) as Hcall.
  { unfold call, find_budget_perturbation.
    repeat (rewrite outcome_bind_cases;
            match goal with
            | |- context [match outcome ?m with _ => _ end] =>
                destruct (outcome m); [|by eauto]
            end).
    by left. }
  destruct Hcall as [->|[e ->]]; [by left|right; eauto].
Qed.

Lemma first_pass optimize_model fuel instance initial_budgets delta epsilon t
    prices norma :
  truthy norma = true →
  let step := perturbation_step optimize_model initial_budgets epsilon delta
                                prices instance t in
  ∃ e, outcome step = Raise e
       ∧ equilibrium_loop optimize_model (S fuel) instance initial_budgets
           delta epsilon t prices norma
         = Some (Traced (trace step) (Raise e)).
Proof.
  intros Hnorma step. cbn [equilibrium_loop]. rewrite Hnorma. cbv zeta.
  destruct (perturbation_step_outcome optimize_model initial_budgets epsilon
              delta prices instance t) as [[_ He]|(e & _ & He)];
    fold step in He |- *; rewrite He; eauto.
Qed.

(** C10. [find_budget_perturbation] has no value but [None]; the unpacking
    of its result in the loop therefore raises in every pass, with
    [TypeError] when the call returned; and [find_ACEEI_with_EFTB] never
    returns an allocation: with fuel for at least one pass it ends with an
    exception, and without fuel it has no result. *)
Theorem find_budget_perturbation_returns_None optimize_model initial_budgets
    epsilon delta prices instance t fuel :
  ((outcome (find_budget_perturbation optimize_model initial_budgets epsilon
               delta prices instance t) = Ok PNone
    ∧ outcome (perturbation_step optimize_model initial_budgets epsilon delta
                 prices instance t) = Raise TypeError)
   ∨ (∃ e,
        outcome (find_budget_perturbation optimize_model initial_budgets
                   epsilon delta prices instance t) = Raise e
        ∧ outcome (perturbation_step optimize_model initial_budgets epsilon
                     delta prices instance t) = Raise e))
  ∧ (∃ tr e, find_ACEEI_with_EFTB optimize_model (S fuel) instance
               initial_budgets delta epsilon t
             = Some (Traced tr (Raise e)))
  ∧ find_ACEEI_with_EFTB optimize_model 0 instance initial_budgets delta
      epsilon t = None.
Proof.
  split; [apply perturbation_step_outcome|]. split; [|done].
  unfold find_ACEEI_with_EFTB.
  edestruct first_pass as (e & _ & ->); [|by eauto]. done.
Qed.

(** The call returns [None] when the stages before it go through. *)
Example find_budget_perturbation_no_agents :
  find_budget_perturbation cleared ∅ (ratio 1 2) (ratio 1 2) (PriceList [])
    (make_instance [] [] []) NO_EF_TB
  = Traced [Optimization] (Ok PNone).
Proof. reflexivity. Qed.

(** C1 at a failing input, the first doctest of [find_ACEEI_with_EFTB]:
    whatever the optimizer and the fuel, the first pass ends in
    [find_different_budgets] with [AttributeError], since the prices are a
    list; no norm is reported, no price is updated and nothing is
    returned. *)
Theorem find_ACEEI_with_EFTB_first_pass_fails optimize_model fuel :
  find_ACEEI_with_EFTB optimize_model (S fuel) avi_beni avi_beni_budgets
    (ratio 1 2) (ratio 1 2) NO_EF_TB
  = Some (Traced [PriceIteration; BudgetEnumeration (KStr "avi")]
                 (Raise AttributeError)).
Proof. vm_compute. reflexivity. Qed.

Lemma find_different_budgets_zero_delta instance initial_budgets epsilon
    prices :
  find_different_budgets instance initial_budgets epsilon 0 prices
  = Traced [] (Raise ZeroDivisionError).
Proof.
  unfold find_different_budgets, py_div. by rewrite decide_True.
Qed.

Lemma trace_student_pass instance initial_budgets epsilon max_k prices st
    student :
  ∃ tr, trace (student_pass instance initial_budgets epsilon max_k prices
                            st student)
        = BudgetEnumeration student :: tr.
Proof. destruct st. unfold student_pass. rewrite trace_bind. by eexists. Qed.

Lemma trace_find_different_budgets instance initial_budgets epsilon delta
    prices student rest :
  delta ≠ 0 →
  agents instance = student :: rest →
  ∃ tr, trace (find_different_budgets instance initial_budgets epsilon delta
                                      prices)
        = BudgetEnumeration student :: tr.
Proof.
  intros Hdelta Hagents. unfold find_different_budgets, py_div.
  rewrite decide_False by done. rewrite Hagents.
  rewrite trace_bind. cbn [lift trace outcome mbind result_bind mret
                           result_ret app].
  rewrite trace_bind, foldM_cons, trace_bind.
  destruct (trace_student_pass instance initial_budgets epsilon
              (2 * epsilon / delta + 1) prices (∅, ∅) student) as [tr ->].
  by eexists.
Qed.

(** C8, as amended.  [find_ACEEI_with_EFTB] does not check [delta] or
    [epsilon].  With [delta = 0] the first pass of the loop ends with
    [ZeroDivisionError] where [find_different_budgets] computes [max_k],
    before any budget is enumerated or any bundle maximized.  With any other
    [delta] and any [epsilon], negative ones included, the first pass goes
    on into the budget enumeration of the first agent. *)
Theorem find_ACEEI_with_EFTB_unchecked optimize_model fuel instance
    initial_budgets delta epsilon t :
  find_ACEEI_with_EFTB optimize_model (S fuel) instance initial_budgets 0
    epsilon t
  = Some (Traced [PriceIteration] (Raise ZeroDivisionError))
  ∧ (delta ≠ 0 →
     ∀ student rest, agents instance = student :: rest →
     ∃ tr e,
       find_ACEEI_with_EFTB optimize_model (S fuel) instance initial_budgets
         delta epsilon t
       = Some (Traced (PriceIteration :: BudgetEnumeration student :: tr)
                      (Raise e))).
Proof.
  split.
  - unfold find_ACEEI_with_EFTB. cbn [equilibrium_loop].
    unfold perturbation_step, find_budget_perturbation.
    by rewrite find_different_budgets_zero_delta.
  - intros Hdelta student rest Hagents. unfold find_ACEEI_with_EFTB.
    edestruct first_pass as (e & _ & ->); [done|].
    unfold perturbation_step at 1. rewrite trace_bind.
    cbn [tell trace outcome app].
    unfold find_budget_perturbation. rewrite !trace_bind.
    destruct (trace_find_different_budgets instance initial_budgets epsilon
                delta (PriceList (replicate (num_of_items instance) 0))
                student rest Hdelta Hagents) as [tr ->].
    by eexists _, _.
Qed.

(** The first doctest with [delta = 0], and with both parameters negative. *)
Lemma find_ACEEI_with_EFTB_unchecked_witness :
  find_ACEEI_with_EFTB cleared 1 avi_beni avi_beni_budgets 0 (ratio 1 2)
    NO_EF_TB
  = Some (Traced [PriceIteration] (Raise ZeroDivisionError))
  ∧ ∃ tr e,
      find_ACEEI_with_EFTB cleared 1 avi_beni avi_beni_budgets (ratio (-1) 2)
        (ratio (-1) 2) NO_EF_TB
      = Some (Traced (PriceIteration :: BudgetEnumeration (KStr "avi") :: tr)
                     (Raise e)).
Proof.
  destruct (find_ACEEI_with_EFTB_unchecked cleared 0 avi_beni
              avi_beni_budgets (ratio (-1) 2) (ratio (-1) 2) NO_EF_TB)
    as [Hzero Hother].
  split; [exact Hzero|].
  apply (Hother ltac:(by_eval) (KStr "avi") [KStr "beni"]). reflexivity.
Defined.

(** The claim C8 as stated fails: a negative [delta], and a negative
    [epsilon], are not refused.  Both runs enter the loop and the budget
    enumeration, and end there as the run with well-formed parameters
    does. *)
Lemma malformed_parameters_not_rejected :
  ¬ ((ratio (-1) 2 ≤ 0 ∨ ratio 1 2 < 0) →
     rejected (find_ACEEI_with_EFTB cleared 1 avi_beni avi_beni_budgets
                 (ratio (-1) 2) (ratio 1 2) NO_EF_TB))
  ∧ ¬ ((ratio 1 2 ≤ 0 ∨ ratio (-1) 2 < 0) →
       rejected (find_ACEEI_with_EFTB cleared 1 avi_beni avi_beni_budgets
                   (ratio 1 2) (ratio (-1) 2) NO_EF_TB)).
Proof.
  split; intros H.
  - destruct H as [e He]; [left; by_eval|]. vm_compute in He. discriminate.
  - destruct H as [e He]; [right; by_eval|]. vm_compute in He. discriminate.
Qed.


(** ** [student_budget_per_bundle]: what it can return *)

Local Close Scope Qc_scope.

(** While [utility_combination] is unbound, a combination that [consider]
    gets past leaves the local variables as they were. *)
Lemma consider_unbound instance prices student_name large_num budget st st'
    combination :
  utility_combination st = None →
  consider instance prices student_name large_num budget st combination
  = Ok st' →
  st' = st.
Proof.
  intros Hunbound. unfold consider. intros H.
  apply bind_Ok_inv in H as (chosen & _ & H).
  case_decide; [|by injection H as <-].
  rewrite Hunbound in H. by case_decide.
Qed.

Lemma consider_loop_unbound instance prices student_name large_num budget
    (l : list (list nat)) st st' :
  utility_combination st = None →
  foldM (consider instance prices student_name large_num budget) st l
  = Ok st' →
  st' = st.
Proof.
  intros Hunbound Hfold.
  apply (foldM_invariant (λ s, s = st)) in Hfold; [done| |done].
  intros s c s' -> Hc. by eapply consider_unbound.
Qed.

Lemma binary_vector_None prices :
  binary_vector None prices = replicate (price_len prices) 0%Z.
Proof.
  unfold binary_vector, range. generalize 0 at 1.
  induction (price_len prices) as [|n IH]; intros start; [done|].
  simpl. f_equal. apply IH.
Qed.

Lemma per_budget_unbound instance prices student_idx student_name large_num
    s matrix_a budget s' matrix_a' :
  utility_combination s = None →
  max_combination s = None →
  zero_vectors prices matrix_a →
  per_budget instance prices student_idx student_name large_num
             (s, matrix_a) budget = Ok (s', matrix_a') →
  utility_combination s' = None
  ∧ max_combination s' = None
  ∧ zero_vectors prices matrix_a'
  ∧ length matrix_a' = length matrix_a.
Proof.
  intros Hunbound Hmax Hzero. unfold per_budget. intros H.
  apply bind_Ok_inv in H as (capacity & _ & H).
  apply bind_Ok_inv in H as (s1 & Hs1 & H).
  apply bind_Ok_inv in H as (row & Hrow & [= <- <-]).
  apply consider_loop_unbound in Hs1 as ->; [|done]. simpl.
  repeat split; [done..| |by rewrite length_insert].
  rewrite Hmax, binary_vector_None. unfold list_getitem in Hrow.
  destruct (matrix_a !! student_idx) as [row'|] eqn:Hidx; [|done].
  injection Hrow as ->. unfold zero_vectors.
  apply Forall_insert; [done|]. apply Forall_app.
  split; [|by repeat constructor].
  unfold zero_vectors in Hzero. rewrite Forall_lookup in Hzero.
  by eapply Hzero.
Qed.

(** The students' loop keeps [utility_combination] unbound, the vectors
    zero and the number of rows. *)
Lemma student_budget_per_bundle_inv different_budgets prices instance
    matrix_a :
  outcome (student_budget_per_bundle different_budgets prices instance)
  = Ok matrix_a →
  zero_vectors prices matrix_a ∧ length matrix_a = num_of_agents instance.
Proof.
  unfold student_budget_per_bundle. intros H.
  apply outcome_bind_inv in H as ([binding m] & Hfold & [= <-]).
  set (P := λ st : option Qc * list (list (list Z)),
    st.1 = None ∧ zero_vectors prices st.2
    ∧ length st.2 = num_of_agents instance).
  assert (P (binding, m)) as (_ & ? & ?); [|done].
  eapply (outcome_foldM_invariant P); [| |exact Hfold]; last first.
  { split; [done|]. simpl. split; [|by rewrite length_replicate].
    apply Forall_replicate. constructor. }
  intros [b0 m0] [student_idx student_name] [b1 m1] (Hb0 & Hzero & Hlen) Hbody.
  cbv beta iota in Hbody. simpl in Hb0, Hzero, Hlen. subst b0.
  apply outcome_bind_inv in Hbody as ([] & _ & Hbody).
  apply outcome_bind_inv in Hbody as (valuations & _ & Hbody).
  apply outcome_bind_inv in Hbody as (budgets & _ & Hbody).
  apply outcome_bind_inv in Hbody as ([s2 m2] & Hbudgets & [= <- <-]).
  change (foldM (per_budget instance prices student_idx student_name
                            (sum_list (dict_values valuations)))
                (Locals [] None None None, m0) budgets = Ok (s2, m2))
    in Hbudgets.
  set (Q := λ st : locals * list (list (list Z)),
    utility_combination st.1 = None ∧ max_combination st.1 = None
    ∧ zero_vectors prices st.2 ∧ length st.2 = num_of_agents instance).
  assert (Q (s2, m2)) as (? & _ & ? & ?); [|done].
  eapply (foldM_invariant Q); [| |exact Hbudgets]; [|done].
  intros [s3 m3] budget [s4 m4] (Hu & Hm & Hz & Hl) Hstep. simpl in *.
  destruct (per_budget_unbound _ _ _ _ _ _ _ _ _ _ Hu Hm Hz Hstep)
    as (? & ? & ? & Hl'). unfold Q. simpl. by rewrite Hl'.
Qed.

(** X14. [student_budget_per_bundle] never selects a bundle: whenever it
    returns, every vector of the matrix is all zero; it returns one row per
    agent, and every vector has one entry per price. *)
Theorem student_budget_per_bundle_all_zero different_budgets prices instance
    matrix_a :
  outcome (student_budget_per_bundle different_budgets prices instance)
  = Ok matrix_a →
  length matrix_a = num_of_agents instance
  ∧ ∀ student_idx row j vector,
      matrix_a !! student_idx = Some row → row !! j = Some vector →
      length vector = price_len prices ∧ Forall (λ x, x = 0%Z) vector.
Proof.
  intros H. apply student_budget_per_bundle_inv in H as [Hzero Hlen].
  split; [done|]. intros student_idx row j vector Hrow Hvector.
  unfold zero_vectors in Hzero. rewrite Forall_lookup in Hzero.
  specialize (Hzero _ _ Hrow). rewrite Forall_lookup in Hzero.
  rewrite (Hzero _ _ Hvector), length_replicate.
  split; [done|]. apply Forall_replicate. done.
Qed.

(** Budgets below the price of every course. *)
Lemma student_budget_per_bundle_all_zero_witness :
  length [[[0; 0; 0]; [0; 0; 0]]; [[0; 0; 0]]]%Z = num_of_agents alice_bob
  ∧ ∀ student_idx row j vector,
      [[[0; 0; 0]; [0; 0; 0]]; [[0; 0; 0]]]%Z !! student_idx = Some row →
      row !! j = Some vector →
      length vector = price_len (PriceList (Qc_of_Z <$> [1; 2; 3]%Z))
      ∧ Forall (λ x, x = 0%Z) vector.
Proof.
  apply (student_budget_per_bundle_all_zero
           (BudgetList [[ratio 1 2; ratio 3 4]; [ratio 1 3]])
           (PriceList (Qc_of_Z <$> [1; 2; 3]%Z)) alice_bob
           [[[0; 0; 0]; [0; 0; 0]]; [[0; 0; 0]]]%Z).
  vm_compute. reflexivity.
Defined.

Local Open Scope Qc_scope.

Lemma traced_bind_Ok {A B} (tr : list stage) (a : A) (f : A → traced B) :
  Traced tr (Ok a) ≫= f = Traced (tr ++ trace (f a)) (outcome (f a)).
Proof. reflexivity. Qed.

Lemma traced_bind_Raise {A B} (tr : list stage) (e : exn) (f : A → traced B) :
  Traced tr (Raise e) ≫= f = Traced tr (Raise e).
Proof. reflexivity. Qed.

Lemma imap_pair_cons {A} (x : A) (l : list A) :
  imap pair (x :: l) = (0%nat, x) :: imap (pair ∘ S) l.
Proof. reflexivity. Qed.

Lemma combinations_0 {A} (l : list A) : combinations l 0 = [[]].
Proof. by destruct l. Qed.

(** The first combination that a student with room for a course tries is
    course 0 alone. *)
Lemma first_combination (n : nat) (capacity : Z) :
  (1 ≤ capacity)%Z →
  ∃ l, mjoin (combinations (range (S n)) <$> range1 capacity) = [0%nat] :: l.
Proof.
  intros Hcap. unfold range, range1.
  destruct (Z.to_nat capacity) as [|c] eqn:Hc; [lia|].
  simpl. rewrite combinations_0. simpl. by eexists.
Qed.

Lemma per_budget_affordable instance prices student_idx student_name large_num
    s matrix_a budget capacity p0 :
  dict_get (_agent_capacities instance) student_name = Some capacity →
  (1 ≤ capacity)%Z →
  _item_capacities instance ≠ [] →
  price_getitem prices 0 = Ok p0 →
  p0 ≤ budget →
  combination_list s = [] →
  utility_combination s = None →
  per_budget instance prices student_idx student_name large_num
             (s, matrix_a) budget = Raise UnboundLocalError.
Proof.
  intros Hcap Hroom Hitems Hp0 Hle Hlist Hunbound. unfold per_budget.
  unfold dict_getitem. rewrite Hcap, bind_Ok, Hlist.
  destruct (_item_capacities instance) as [|item items] eqn:Hi; [done|].
  unfold dict_keys. rewrite length_fmap. cbn [length app].
  destruct (first_combination (length items) capacity Hroom) as [l ->].
  cbn [combination_list]. rewrite foldM_cons.
  rewrite (consider_affordable _ _ _ _ _ _ _ [p0]); [done|done| |].
  - simpl. by rewrite Hp0.
  - simpl. by rewrite Qcplus_0_r.
Qed.

(** X15. When the first student has room for a course, there is a course,
    and the student's first candidate budget covers the price of course 0,
    [student_budget_per_bundle] raises [UnboundLocalError] in that student's
    search, before it has emitted any vector. *)
Theorem student_budget_per_bundle_affordable different_budgets prices
    instance student_name capacity others valuations budget budgets p0 :
  _agent_capacities instance = (student_name, capacity) :: others →
  (1 ≤ capacity)%Z →
  _item_capacities instance ≠ [] →
  dict_get (_valuations instance) student_name = Some valuations →
  budget_getitem different_budgets 0 = Ok (budget :: budgets) →
  price_getitem prices 0 = Ok p0 →
  p0 ≤ budget →
  student_budget_per_bundle different_budgets prices instance
  = Traced [BundleMaximization student_name] (Raise UnboundLocalError).
Proof.
  intros Hcaps Hroom Hitems Hval Hbudgets Hp0 Hle.
  unfold student_budget_per_bundle. rewrite Hcaps.
  unfold dict_keys. rewrite fmap_cons, imap_pair_cons, foldM_cons.
  cbv beta iota. cbn [fst].
  assert (dict_getitem (_valuations instance) student_name = Ok valuations)
    as Hv by (unfold dict_getitem; by rewrite Hval).
  assert (dict_get (_agent_capacities instance) student_name = Some capacity)
    as Hcap by (rewrite Hcaps; simpl; by rewrite decide_True).
  rewrite Hv, Hbudgets. unfold tell, lift.
  rewrite !traced_bind_Ok, foldM_cons.
  by rewrite (per_budget_affordable _ _ _ _ _ _ _ _ capacity p0).
Qed.

(** The input of C2's failing run. *)
Lemma student_budget_per_bundle_affordable_witness :
  student_budget_per_bundle
    (BudgetList [Qc_of_Z <$> [3; 4; 5]%Z; Qc_of_Z <$> [2; 3; 4; 5]%Z])
    (PriceList (Qc_of_Z <$> [1; 2; 3]%Z)) alice_bob
  = Traced [BundleMaximization (KStr "Alice")] (Raise UnboundLocalError).
Proof.
  apply (student_budget_per_bundle_affordable
           (BudgetList [Qc_of_Z <$> [3; 4; 5]%Z; Qc_of_Z <$> [2; 3; 4; 5]%Z])
           (PriceList (Qc_of_Z <$> [1; 2; 3]%Z)) alice_bob
           (KStr "Alice") 2 (counts [("Bob", 2)]%Z)
           (numbers [("x", 5); ("y", 5); ("z", 1)]%Z)
           (Qc_of_Z 3) (Qc_of_Z <$> [4; 5]%Z) (Qc_of_Z 1)).
  - reflexivity.
  - lia.
  - discriminate.
  - reflexivity.
  - reflexivity.
  - reflexivity.
  - by_eval.
Defined.

(** ** How the stages compose *)

(** [student_budget_per_bundle] looks rows up by the position of the
    student: a dict without the key 0 stops it at the first student. *)
Lemma student_budget_per_bundle_no_row db prices instance student_name
    capacity others :
  _agent_capacities instance = (student_name, capacity) :: others →
  db !! KInt 0 = None →
  student_budget_per_bundle (BudgetDict db) prices instance
  = Traced [BundleMaximization student_name] (Raise KeyError).
Proof.
  intros Hcaps Hrow. unfold student_budget_per_bundle. rewrite Hcaps.
  unfold dict_keys. rewrite fmap_cons, imap_pair_cons, foldM_cons.
  cbv beta iota. cbn [fst].
  assert (budget_getitem (BudgetDict db) 0 = Raise KeyError) as ->.
  { unfold budget_getitem, gmap_getitem.
    change (Z.of_nat 0) with 0%Z. by rewrite Hrow. }
  unfold tell, lift, dict_getitem. rewrite traced_bind_Ok.
  destruct (dict_get (_valuations instance) student_name);
    by rewrite ?traced_bind_Ok, ?traced_bind_Raise.
Qed.

(** X16. The rows that [find_different_budgets] returns are keyed by the
    agents, and [student_budget_per_bundle] looks them up by position.  On an
    instance whose agents are named by strings, and that has at least one
    student, [find_budget_perturbation] therefore never consults the
    optimizer: it raises what [find_different_budgets] raises, and
    [KeyError] when [find_different_budgets] returns. *)
Theorem find_budget_perturbation_named_agents (opt1 opt2 : optimizer)
    initial_budgets epsilon delta prices instance t :
  (∀ a, a ∈ agents instance → ∃ name, a = KStr name) →
  _agent_capacities instance ≠ [] →
  find_budget_perturbation opt1 initial_budgets epsilon delta prices instance t
  = find_budget_perturbation opt2 initial_budgets epsilon delta prices
      instance t
  ∧ outcome (find_budget_perturbation opt1 initial_budgets epsilon delta
               prices instance t)
    = match outcome (find_different_budgets instance initial_budgets epsilon
                       delta prices) with
      | Ok _ => Raise KeyError
      | Raise e => Raise e
      end.
Proof.
  intros Hnames Hstudents. unfold find_budget_perturbation.
  destruct (find_different_budgets instance initial_budgets epsilon delta
              prices) as [tr [db|e]] eqn:Hdb; [|done].
  destruct (_agent_capacities instance) as [|[name capacity] others] eqn:Hcaps;
    [done|].
  assert (db !! KInt 0 = None) as Hrow.
  { apply eq_None_not_Some. intros Hsome.
    assert (outcome (find_different_budgets instance initial_budgets epsilon
                       delta prices) = Ok db) as Hout by (by rewrite Hdb).
    unfold find_different_budgets in Hout.
    apply outcome_bind_inv in Hout as (max_k & _ & Hout).
    apply outcome_bind_inv in Hout as (st & Hfold & [= <-]).
    apply (student_passes_keys _ _ _ _ _ _ _ _ Hfold) in Hsome
      as [Hin|Hempty].
    - by destruct (Hnames _ Hin).
    - simpl in Hempty. rewrite lookup_empty in Hempty. by destruct Hempty. }
  rewrite !traced_bind_Ok.
  by rewrite (student_budget_per_bundle_no_row _ _ _ _ _ _ Hcaps Hrow).
Qed.

(** The first doctest of [find_different_budgets], with two optimizers. *)
Lemma find_budget_perturbation_named_agents_witness :
  find_budget_perturbation cleared alice_bob_budgets (Qc_of_Z 2) (ratio 1 2)
    c1_c2_c3 alice_bob EF_TB
  = find_budget_perturbation (λ _ _ _ _ _, Raise SolverError)
      alice_bob_budgets (Qc_of_Z 2) (ratio 1 2) c1_c2_c3 alice_bob EF_TB
  ∧ outcome (find_budget_perturbation cleared alice_bob_budgets (Qc_of_Z 2)
               (ratio 1 2) c1_c2_c3 alice_bob EF_TB)
    = match outcome (find_different_budgets alice_bob alice_bob_budgets
                       (Qc_of_Z 2) (ratio 1 2) c1_c2_c3) with
      | Ok _ => Raise KeyError
      | Raise e => Raise e
      end.
Proof.
  apply (find_budget_perturbation_named_agents cleared
           (λ _ _ _ _ _, Raise SolverError)).
  - intros a Ha.
    repeat (apply elem_of_cons in Ha as [->|Ha]; [by eexists|]).
    by apply elem_of_nil in Ha.
  - discriminate.
Defined.

(** ** [find_ACEEI_with_EFTB]: the first pass in general *)

Lemma student_pass_list_prices instance initial_budgets epsilon max_k p st
    student :
  (1 ≤ agent_capacity instance student)%Z →
  student_pass instance initial_budgets epsilon max_k (PriceList p) st student
  = Traced [BudgetEnumeration student] (Raise AttributeError).
Proof.
  intros Hcap. destruct st as [sums db]. unfold student_pass.
  by rewrite add_combination_sums_list, decide_True.
Qed.

Lemma find_different_budgets_list_prices instance initial_budgets epsilon
    delta p student others :
  delta ≠ 0 →
  agents instance = student :: others →
  (1 ≤ agent_capacity instance student)%Z →
  find_different_budgets instance initial_budgets epsilon delta (PriceList p)
  = Traced [BudgetEnumeration student] (Raise AttributeError).
Proof.
  intros Hdelta Hagents Hcap. unfold find_different_budgets, py_div.
  rewrite decide_False by done. rewrite Hagents.
  cbn [mbind result_bind mret result_ret lift traced_bind trace outcome app].
  by rewrite foldM_cons, student_pass_list_prices.
Qed.

(** X17. On every instance whose first agent may take at least one course,
    and for every step that is not zero, [find_ACEEI_with_EFTB] ends in its
    first pass with [AttributeError], in the budget enumeration of that
    agent: the prices it builds are a list, and [find_different_budgets]
    calls [.values()] on them.  The budgets, [epsilon], the mode, the
    optimizer and the fuel play no part. *)
Theorem find_ACEEI_with_EFTB_attribute_error optimize_model fuel instance
    initial_budgets delta epsilon t student others :
  delta ≠ 0 →
  agents instance = student :: others →
  (1 ≤ agent_capacity instance student)%Z →
  find_ACEEI_with_EFTB optimize_model (S fuel) instance initial_budgets delta
    epsilon t
  = Some (Traced [PriceIteration; BudgetEnumeration student]
                 (Raise AttributeError)).
Proof.
  intros Hdelta Hagents Hcap. unfold find_ACEEI_with_EFTB.
  cbn [equilibrium_loop]. unfold perturbation_step, find_budget_perturbation.
  by rewrite (find_different_budgets_list_prices _ _ _ _ _ student others).
Qed.

(** The first doctest of [find_ACEEI_with_EFTB] with a negative step and a
    failing optimizer. *)
Lemma find_ACEEI_with_EFTB_attribute_error_witness :
  find_ACEEI_with_EFTB (λ _ _ _ _ _, Raise SolverError) 3 avi_beni
    avi_beni_budgets (ratio (-1) 2) (ratio 1 2) CONTESTED_EF_TB
  = Some (Traced [PriceIteration; BudgetEnumeration (KStr "avi")]
                 (Raise AttributeError)).
Proof.
  apply (find_ACEEI_with_EFTB_attribute_error
           (λ _ _ _ _ _, Raise SolverError) 2 avi_beni avi_beni_budgets
           (ratio (-1) 2) (ratio 1 2) CONTESTED_EF_TB (KStr "avi")
           [KStr "beni"]).
  - by_eval.
  - reflexivity.
  - by_eval.
Defined.

(** X18. On an instance without agents, and for a step that is not zero,
    the first pass reaches the optimizer with a matrix of empty rows; the
    run then ends with the optimizer's own exception, or, when the optimizer
    returns, with [TypeError] at the unpacking of [None]. *)
Theorem find_ACEEI_with_EFTB_no_agents optimize_model fuel instance
    initial_budgets delta epsilon t :
  delta ≠ 0 →
  agents instance = [] →
  _agent_capacities instance = [] →
  find_ACEEI_with_EFTB optimize_model (S fuel) instance initial_budgets delta
    epsilon t
  = Some (Traced [PriceIteration; Optimization]
            (Raise match optimize_model
                           (replicate (num_of_agents instance) []) instance
                           (PriceList (replicate (num_of_items instance) 0))
                           t initial_budgets with
                   | Ok _ => TypeError
                   | Raise e => e
                   end)).
Proof.
  intros Hdelta Hagents Hstudents. unfold find_ACEEI_with_EFTB.
  cbn [equilibrium_loop]. unfold perturbation_step, find_budget_perturbation.
  unfold find_different_budgets, py_div, student_budget_per_bundle.
  rewrite decide_False by done. rewrite Hagents, Hstudents.
  cbn -[replicate].
  by destruct (optimize_model _ _ _ _ _).
Qed.

Lemma find_ACEEI_with_EFTB_no_agents_witness :
  find_ACEEI_with_EFTB cleared 1 (make_instance [] [] (counts [("x", 1)]%Z))
    ∅ (ratio 1 2) (ratio 1 2) NO_EF_TB
  = Some (Traced [PriceIteration; Optimization]
            (Raise match cleared
                           (replicate (num_of_agents
                              (make_instance [] [] (counts [("x", 1)]%Z))) [])
                           (make_instance [] [] (counts [("x", 1)]%Z))
                           (PriceList (replicate (num_of_items
                              (make_instance [] [] (counts [("x", 1)]%Z))) 0))
                           NO_EF_TB ∅ with
                   | Ok _ => TypeError
                   | Raise e => e
                   end)).
Proof.
  apply (find_ACEEI_with_EFTB_no_agents cleared 0
           (make_instance [] [] (counts [("x", 1)]%Z)) ∅ (ratio 1 2)
           (ratio 1 2) NO_EF_TB).
  - by_eval.
  - reflexivity.
  - reflexivity.
Defined.
